(* ===== verification/_CoqProject ===== *)
-Q . S2P
Prelude.v
PyValue.v
Address.v
Bus.v
Slug.v
LampState.v
LampCore.v
LampPredict.v
LampOps.v
LampCtrl.v
LampInit.v
InitErrors.v
Legacy.v
Topics.v
Json.v
JsonParse.v
Discovery.v
LampStr.v
Group.v
Ballast.v
Serial.v
