(* ===== verification/Prelude.v ===== *)
(** * A verification development of dali2mqtt's lamp controller

    dali2mqtt bridges a DALI lighting bus and an MQTT broker.  The part
    modelled here is the class [Lamp], of which the repository has two
    versions:
    - [src/dali2mqtt/lamp.py], the current one: the constructor seeds the
      lamp's bounds and level from four bus queries with field-by-field
      fallbacks, the [level] property setter clamps a requested level into
      [min_level, max_level] (0, "off", is exempt) and sends a DAPC
      (direct arc power control) command, [level_change_needed] predicts
      whether the setter would change the cached level, [actual_level]
      re-reads the ballast, [off] sends Off, [is_group] classifies the
      address and [add_associated_lamp] records group members;
      [gen_ha_config] renders the Home Assistant discovery document and
      [__str__] a status line;
    - [src/lamp.py], the legacy one: its constructor takes the bounds as
      arguments and its setter raises [ValueError] on an out-of-range level
      instead of clamping.

    ** Files, in dependency order
    - [Prelude] (this file): the error/state monad [PyM] in which Python
      code runs (an [outcome] is a value or a raised [exn]), its laws, the
      tactics [peel_binds] and [zcase], the hint databases [dali] and
      [dali_rw], and string lemmas shared by the topic and slug files.
    - [PyValue]: Python values as the lamp stores them ([VInt], [VNone],
      [VObj] for a non-integer object such as a DALI error response),
      [isinstance(v, int)], truthiness, and [.value] of a driver reply.
    - [Address]: DALI addresses (python-dali's [address.Short],
      [address.Group], broadcast).
    - [Bus]: the gear commands the lamp sends, the driver interface
      (a [Class] with [respond] and the driver's type name) and the world
      the Python code runs in: the driver's state plus the log of every
      command sent, in order.  [send] is [driver.send].  [Script] is a
      driver that plays back a list of replies, used by the examples.
    - [Slug]: [slugify] (python-slugify, modelled from the spec), its
      character set and idempotence, and a collision.
    - [LampState]: the record of a lamp object's attributes, the
      [level] getter, the two attribute assignments the operations use, [is_group],
      [add_associated_lamp], and the example lamps.
    - [LampCore]: the [level] setter of [src/dali2mqtt/lamp.py]
      ([set_level] with its clamp [setter_clamp]), the spec's clamp
      [clamp_spec] and invariant [lamp_inv]; the clamp on every branch,
      the byte range of every DAPC, the missing lower clamp for a non-int
      [min_level].
    - [LampPredict]: [level_change_needed] and its agreement with the
      setter.
    - [LampOps]: [actual_level] and [off], each on every branch.
    - [LampCtrl]: the controller as a step relation [ctrl_step] (the
      setter and [off]) whose reachable states keep [lamp_inv]; a refresh
      by [actual_level] is left out of it because it need not keep the
      invariant ([LampOps.actual_level_spec]).
    - [LampInit]: [Lamp.__init__]: the log-level lookup, the four queries
      in source order, the fallbacks, the setter call, and the types of
      the attributes of every lamp it returns.
    - [InitErrors]: the constructor's [KeyError] and [AttributeError]
      paths.
    - [Legacy]: the [Lamp] of [src/lamp.py] and its refinement by the
      current setter.
    - [Topics]: [str.format] and the topic templates of [consts.py]
      (modelled from the constants: not under src/); distinctness of the
      topics.
    - [Json]: [json.dumps] of the discovery dict (Python's standard
      library, modelled from its documented defaults).
    - [JsonParse]: a parser of what [dumps] writes, and the round trip
      [parse (encode j) = Some j].  The parser runs on fuel;
      [parse] gives it [String.length s + 1], and the round trip proves
      this is enough: [json_size j], the nesting and member count the
      parser consumes, is at most the length of [encode j].
    - [Discovery]: [gen_ha_config] of both versions: the document and
      its fields, and that a constructed lamp always gets one.
    - [LampStr]: [__str__].
    - [Group]: lamps as objects of a [gmap nat Lamp] store, associated
      lamps as identities (aliasing), insertion order, and fan-out reads
      that see a member's update after later additions.
    - [Ballast]: the interface [BallastBus] a bus with the lamp's ballast
      satisfies, the coherence of the cached level with the ballast over
      every run of [sync_step] (int requests, [off], [actual_level]), its
      establishment by the constructor, and a DALI control-gear model
      [Gear] discharging the interface.
    - [Serial]: the bridge's guarded brightness handler
      ([if level_change_needed(v): level = v], modelled from the spec:
      the bridge is not under src/) and two writers of one lamp as
      interleaved micro-steps run by a schedule: serial runs send no
      redundant DAPC, and for every lamp and request that changes the
      level the interleaving of two guarded writers sends it twice (why
      section 5 of the spec asks for serialisation).

    ** Integers and bounds
    DALI levels are bytes, but the Python code keeps them as unbounded
    ints and never wraps: they are [Z] here, with no modular arithmetic.
    The byte range matters where a level goes on the bus: the setter's
    DAPC carries a byte whenever both bounds are int bytes
    ([LampCore.set_level_dapc_byte]; with a non-int [min_level] it can
    be negative, [LampCore.set_level_negative_unclamped]), and the
    coherence theorems of [Ballast] ask [1 <= min_level] and
    [max_level <= 254] (255 is DALI's mask value and does not set a
    level).

    ** Termination and fuel
    Every definition is structurally recursive except the JSON parser,
    which runs on fuel (see [JsonParse]).  The interleavings of [Serial]
    are run by [run_sched] along a finite schedule, structurally on it.

    ** Not modelled
    The MQTT client and the main loop ([dali_mqtt_daemon.py],
    [__main__]) beyond the brightness handler of [Serial], the DALI
    drivers' I/O (hasseb, tridonic, the network driver) and python-dali's
    command and response classes are outside [src/] or are I/O; they
    appear only through the [Driver] interface, whose replies are the
    [PyVal] a response's [.value] can hold (an int, [None], or another
    object).  That is why the driver component is only partly modelled:
    what a real driver answers is the library's, and only the laws of
    [Ballast.BallastBus] and the [Gear] model constrain it.  The module
    headers of both sources (imports, [logging.basicConfig], the module
    logger) and every [logger] call are logging only and not modelled,
    except the [KeyError] of an unknown level name.

    ** Status of the plan (in order of importance)
    1. Level control ([LampCore], [LampPredict], [LampOps],
       [LampCtrl]): done: clamp on every branch, invariant kept by the
       setter and [off], predictor agreeing with the setter, DAPC of
       every commit.
    2. Construction ([LampInit], [InitErrors]): done: queries in order, fallbacks
       86/254, [AttributeError] of a missing reply, the constructor's DAPC.
    3. Legacy lamp ([Legacy]): done: the raising setter and its
       refinement by the clamping one.
    4. Device names and topics ([Slug], [Topics]): done: slug character
       set, idempotence, collision; topics distinct.
    5. Discovery document ([Json], [JsonParse], [Discovery]): done:
       fields, round trip, a document for every constructed lamp.
    6. Groups ([Group]): done: insertion order, fan-out reads.
    7. Ballast ([Ballast]): done: coherence from construction on and
       over [sync_step] runs, the [Gear] instance.
    8. Serialisation of writers ([Serial], spec section 5): done for the
       guarded handler, [off] and [actual_level] on two threads.
    Left: python-dali's [str] of an address (a parameter of [Discovery]
    and [LampStr]), the daemon's dispatch of MQTT topics to handlers. *)

From Stdlib Require Import ZArith List String Lia.
Import ListNotations.

(** ** Exceptions and the Python monad *)

(** The exceptions the modelled code can raise: [AttributeError] from
    [.value] on a missing reply, [KeyError] from an unknown log level name,
    [ValueError] from the legacy setter and from a malformed format string,
    [IndexError] from [str.format] with too few arguments, [TypeError] from
    [json.dumps] on a value it cannot serialise. *)
Inductive exn := AttributeError | KeyError | ValueError | IndexError | TypeError.

Inductive outcome (A : Type) : Type :=
| Ok (a : A)
| Raise (e : exn).
Arguments Ok {A} a.
Arguments Raise {A} e.

(** A Python statement sequence over a state [S]: it returns a value or
    raises, and the state reached is kept in both cases (side effects
    before a raise are not undone). *)
Definition PyM (S A : Type) : Type := S -> outcome A * S.

Definition ret {S A} (a : A) : PyM S A := fun s => (Ok a, s).

Definition raise {S A} (e : exn) : PyM S A := fun s => (Raise e, s).

Definition bind {S A B} (m : PyM S A) (k : A -> PyM S B) : PyM S B :=
  fun s =>
    match m s with
    | (Ok a, s') => k a s'
    | (Raise e, s') => (Raise e, s')
    end.

(** [try: m except Exception: h e]. *)
Definition try_except {S A} (m : PyM S A) (h : exn -> PyM S A) : PyM S A :=
  fun s =>
    match m s with
    | (Ok a, s') => (Ok a, s')
    | (Raise e, s') => h e s'
    end.

Declare Scope py_scope.
Delimit Scope py_scope with py.
Notation "x <- m ;; k" := (bind m (fun x => k))
  (at level 65, m at next level, right associativity) : py_scope.
Notation "m ;;; k" := (bind m (fun _ => k))
  (at level 65, right associativity) : py_scope.

(** Sequencing of pure expressions that may raise. *)
Definition obind {A B} (m : outcome A) (k : A -> outcome B) : outcome B :=
  match m with
  | Ok a => k a
  | Raise e => Raise e
  end.
Notation "x <-? m ;; k" := (obind m (fun x => k))
  (at level 65, m at next level, right associativity) : py_scope.

Section MonadLaws.
Context {S : Type}.

Lemma bind_ret_l {A B} (a : A) (k : A -> PyM S B) s :
  bind (ret a) k s = k a s.
Proof. reflexivity. Qed.

Lemma bind_ret_r {A} (m : PyM S A) s : bind m ret s = m s.
Proof. unfold bind, ret. destruct (m s) as [[a|e] s']; reflexivity. Qed.

Lemma bind_assoc {A B C} (m : PyM S A) (k : A -> PyM S B)
      (k' : B -> PyM S C) s :
  bind (bind m k) k' s = bind m (fun a => bind (k a) k') s.
Proof. unfold bind. destruct (m s) as [[a|e] s']; reflexivity. Qed.

Lemma bind_ok {A B} (m : PyM S A) (k : A -> PyM S B) s a s' :
  m s = (Ok a, s') -> bind m k s = k a s'.
Proof. unfold bind. intros ->. reflexivity. Qed.

Lemma bind_raise {A B} (m : PyM S A) (k : A -> PyM S B) s e s' :
  m s = (Raise e, s') -> bind m k s = (Raise e, s').
Proof. unfold bind. intros ->. reflexivity. Qed.

(** A sequence that returned ran each of its parts to a value. *)
Lemma bind_inv {A B} (m : PyM S A) (k : A -> PyM S B) s b s'' :
  bind m k s = (Ok b, s'') -> exists a s', m s = (Ok a, s') /\ k a s' = (Ok b, s'').
Proof.
  unfold bind. destruct (m s) as [[a|e] s']; [eauto | discriminate].
Qed.
End MonadLaws.

(** Peel the binds of a hypothesis [bind m k s = (Ok b, s'')] into one
    hypothesis per step. *)
Ltac peel_binds H :=
  repeat match type of H with
  | bind _ _ _ = (Ok _, _) =>
      let H1 := fresh "Hstep" in
      apply bind_inv in H; destruct H as (? & ? & H1 & H); cbv beta zeta in H
  end.

Create HintDb dali.
Create Rewrite HintDb dali_rw.
#[export] Hint Rewrite @bind_ret_l @bind_assoc : dali_rw.

(** ** Arithmetic case splits *)

(** Split every boolean comparison on [Z] in the goal and the hypotheses
    into its two cases, with the [Prop] facts in the context. *)
Ltac zcase :=
  repeat match goal with
  | |- context [Z.ltb ?a ?b] => destruct (Z.ltb_spec a b)
  | |- context [Z.leb ?a ?b] => destruct (Z.leb_spec a b)
  | |- context [Z.eqb ?a ?b] => destruct (Z.eqb_spec a b)
  | H : context [Z.ltb ?a ?b] |- _ => destruct (Z.ltb_spec a b)
  | H : context [Z.leb ?a ?b] |- _ => destruct (Z.leb_spec a b)
  | H : context [Z.eqb ?a ?b] |- _ => destruct (Z.eqb_spec a b)
  end.

(** ** Strings *)

Lemma string_app_assoc (a b c : string) :
  (a ++ b ++ c)%string = ((a ++ b) ++ c)%string.
Proof. induction a as [|ch a IH]; simpl; [reflexivity | now rewrite IH]. Qed.

Lemma string_app_nil_r (a : string) : (a ++ EmptyString)%string = a.
Proof. induction a as [|ch a IH]; simpl; [reflexivity | now rewrite IH]. Qed.

Lemma string_length_app (a b : string) :
  String.length (a ++ b) = String.length a + String.length b.
Proof. induction a as [|ch a IH]; simpl; [reflexivity | now rewrite IH]. Qed.

(** Cancellation of a common prefix. *)
Lemma string_app_inv_l (p a b : string) :
  (p ++ a)%string = (p ++ b)%string -> a = b.
Proof. induction p as [|ch p IH]; simpl; [easy | intros H; injection H; auto]. Qed.

(** Cancellation of a common suffix. *)
Lemma string_app_inv_r (s a b : string) :
  (a ++ s)%string = (b ++ s)%string -> a = b.
Proof.
  revert b. induction a as [|ch a IH]; intros [|ch' b] H; simpl in H.
  - reflexivity.
  - apply (f_equal String.length) in H. simpl in H.
    rewrite string_length_app in H. lia.
  - apply (f_equal String.length) in H. simpl in H.
    rewrite string_length_app in H. lia.
  - injection H as -> H. f_equal. now apply IH.
Qed.

#[export] Hint Rewrite string_app_nil_r string_length_app : dali_rw.
