(* ===== verification/PyValue.v ===== *)
(** * Python values as the lamp stores them

    The lamp keeps what the bus returned in its attributes and tests it
    with [isinstance(x, int)] and with Python truthiness
    ([src/dali2mqtt/lamp.py], lines 53-58 and 107-134).  A reply of
    [driver.send] is a python-dali response object, whose [.value] is an
    integer, [None], or another object (python-dali's error values for a
    garbled or missing backward frame); or the driver returns [None]
    itself, and reading [.value] raises [AttributeError]. *)

From Stdlib Require Import ZArith String Lia.
From S2P Require Import Prelude.

(** The values an attribute can hold.  [VObj] is any object that is
    neither an [int] nor [None]; Python objects are truthy unless they
    define otherwise, and python-dali's error values do not. *)
Inductive PyVal :=
| VInt (z : Z)
| VNone
| VObj.

Definition PyVal_eq_dec (u v : PyVal) : {u = v} + {u <> v}.
Proof. decide equality. apply Z.eq_dec. Defined.

(** [u == v] where it matters: between integers, and against [None].  An
    object other than an int or [None] compares by identity; each error
    value of a reply is a fresh object, so it is unequal to anything the
    lamp holds. *)
Definition py_eq (u v : PyVal) : bool :=
  match u, v with
  | VInt a, VInt b => (a =? b)%Z
  | VNone, VNone => true
  | _, _ => false
  end.

(** [isinstance(v, int)]. *)
Definition is_int (v : PyVal) : bool :=
  match v with VInt _ => true | _ => false end.

(** [bool(v)]: an int is true when non-zero, [None] is false, an object is
    true. *)
Definition truthy (v : PyVal) : bool :=
  match v with
  | VInt z => negb (z =? 0)%Z
  | VNone => false
  | VObj => true
  end.

(** What [driver.send(cmd)] returns: [None] when the driver returns no
    response object, [Some v] for a response whose [.value] is [v]. *)
Definition reply := option PyVal.

(** [r.value]: raises [AttributeError] on [None]. *)
Definition value_of {S} (r : reply) : PyM S PyVal :=
  match r with
  | Some v => ret v
  | None => raise AttributeError
  end.

Lemma truthy_int_nonzero z : truthy (VInt z) = true <-> z <> 0%Z.
Proof. simpl. destruct (Z.eqb_spec z 0); simpl; split; congruence. Qed.

Lemma is_int_spec v : is_int v = true <-> exists z, v = VInt z.
Proof.
  destruct v; simpl; split; try (intros [? ?]; discriminate);
    try discriminate; eauto.
Qed.

