(* ===== verification/Address.v ===== *)
(** * DALI addresses

    The lamp's [short_address] is a python-dali address object:
    [address.Short(n)] for one ballast (0 <= n <= 63), [address.Group(g)]
    for a group (0 <= g <= 15), or a broadcast.  [Lamp.is_group] tests
    [isinstance(short_address, address.Group)] (the spec's
    AddressResolver); [Lamp.__str__] reads the [.address] attribute,
    which only a [Short] has ([src/dali2mqtt/lamp.py], lines 146 and
    153-154). *)

From Stdlib Require Import ZArith.
From S2P Require Import Prelude.

Inductive Address :=
| Short (n : Z)
| Group (g : Z)
| Broadcast
| BroadcastUnaddressed.

Definition Address_eq_dec (a b : Address) : {a = b} + {a <> b}.
Proof. decide equality; apply Z.eq_dec. Defined.

(** The ranges python-dali accepts when building the object. *)
Definition address_valid (a : Address) : Prop :=
  match a with
  | Short n => (0 <= n <= 63)%Z
  | Group g => (0 <= g <= 15)%Z
  | _ => True
  end.
