(* ===== verification/Bus.v ===== *)
(** * The DALI bus as the lamp sees it

    [src/dali2mqtt/lamp.py] talks to the bus only through
    [driver.send(cmd)] with six python-dali gear commands, and reads the
    driver's class name for the discovery document.  The driver is an
    interface ([Driver]); the world the Python code runs in is the
    driver's state together with the log of every command sent, in the
    order sent, so that theorems can speak of the bus traffic of an
    operation.  [Script] is a driver that plays back a list of replies,
    used by the witnesses. *)

From Stdlib Require Import ZArith List String.
From S2P Require Import Prelude PyValue Address.
Import ListNotations.

(** The python-dali commands the lamp sends ([gear.QueryPhysicalMinimum],
    [gear.QueryMinLevel], [gear.QueryMaxLevel], [gear.QueryActualLevel],
    [gear.DAPC], [gear.Off]). *)
Inductive Cmd :=
| QueryPhysicalMinimum (a : Address)
| QueryMinLevel (a : Address)
| QueryMaxLevel (a : Address)
| QueryActualLevel (a : Address)
| DAPC (a : Address) (level : Z)
| Off (a : Address).

Definition is_query (c : Cmd) : bool :=
  match c with
  | DAPC _ _ | Off _ => false
  | _ => true
  end.

(** What the lamp needs of a driver: an answer to each command, which may
    change the driver's (and the bus's) state, and [type(driver).__name__]. *)
Class Driver (B : Type) := {
  respond : Cmd -> B -> reply * B;
  driver_name : string
}.

Record world (B : Type) := mkWorld {
  bus : B;
  sent : list Cmd
}.
Arguments mkWorld {B} bus sent.
Arguments bus {B} w.
Arguments sent {B} w.

Section Send.
Context {B : Type} `{Driver B}.

(** [driver.send(c)]. *)
Definition send (c : Cmd) : PyM (world B) reply :=
  fun w =>
    let (r, b') := respond c (bus w) in
    (Ok r, mkWorld b' (sent w ++ [c])).

Lemma send_sent c w : sent (snd (send c w)) = sent w ++ [c].
Proof. unfold send. destruct (respond c (bus w)); reflexivity. Qed.

Lemma send_ok c w : exists r w', send c w = (Ok r, w') /\ sent w' = sent w ++ [c].
Proof. unfold send. destruct (respond c (bus w)) as [r b']. eauto. Qed.
End Send.

(** ** A scripted driver *)

(** Plays back [answers] to the queries, in order; DAPC and Off get no
    response object, as with python-dali's drivers. *)
Record Script := { answers : list reply }.

#[export] Instance Script_driver : Driver Script := {
  respond c s :=
    if is_query c then
      match answers s with
      | r :: rest => (r, {| answers := rest |})
      | [] => (None, s)
      end
    else (None, s);
  driver_name := "Script"%string
}.

Definition script_world (rs : list reply) : world Script :=
  mkWorld {| answers := rs |} [].
