(* ===== verification/Slug.v ===== *)
(** * Device names: the slug of a friendly name

    [Lamp.__init__] sets [device_name = slugify(friendly_name)]
    ([src/dali2mqtt/lamp.py], line 42), and every MQTT topic of the lamp
    is built from it.  [slugify] comes from the python-slugify library, not
    from this repository, so it is modelled from the spec (section 3): the
    name is lower-cased, every maximal run of characters other than
    [a-z0-9] becomes one separator "-", and no separator is left at either
    end.  Strings are byte strings; python-slugify's transliteration of
    non-ASCII text is not modelled, such bytes count as separators.

    The theorems: a slug is made of [a-z0-9] and single inner dashes
    ([slug_ok]), [slugify] is idempotent, and it is not injective, so two
    lamps can share a device name (and all their topics). *)

From Stdlib Require Import Arith Ascii String List Lia.
From S2P Require Import Prelude.
Local Open Scope nat_scope.
Local Open Scope bool_scope.

Definition is_lower_alnum (c : ascii) : bool :=
  let n := nat_of_ascii c in
  ((Nat.leb 97 n) && (Nat.leb n 122)) || ((Nat.leb 48 n) && (Nat.leb n 57)).

(** [str.lower] on one byte: ASCII capitals become small letters. *)
Definition lower (c : ascii) : ascii :=
  let n := nat_of_ascii c in
  if (Nat.leb 65 n) && (Nat.leb n 90) then ascii_of_nat (n + 32) else c.

(** [pending]: a separator run was skipped; [started]: a character has
    been emitted.  A dash is emitted only between two kept characters. *)
Fixpoint slug_aux (pending started : bool) (s : string) : string :=
  match s with
  | EmptyString => EmptyString
  | String c rest =>
      let c' := lower c in
      if is_lower_alnum c' then
        if pending && started then String "-"%char (String c' (slug_aux false true rest))
        else String c' (slug_aux false true rest)
      else slug_aux true started rest
  end.

Definition slugify (s : string) : string := slug_aux false false s.

(** ** Well-formed slugs *)

(** What may follow the first character of a slug. *)
Inductive slug_tail : string -> Prop :=
| tail_nil : slug_tail EmptyString
| tail_char c t : is_lower_alnum c = true -> slug_tail t -> slug_tail (String c t)
| tail_dash c t : is_lower_alnum c = true -> slug_tail t ->
                  slug_tail (String "-"%char (String c t)).

Definition slug_ok (s : string) : Prop :=
  s = EmptyString \/
  exists c t, s = String c t /\ is_lower_alnum c = true /\ slug_tail t.

Lemma lower_alnum c : is_lower_alnum c = true -> lower c = c.
Proof.
  unfold is_lower_alnum, lower. intros H.
  destruct (Nat.leb_spec 65 (nat_of_ascii c)), (Nat.leb_spec (nat_of_ascii c) 90);
    simpl; try reflexivity.
  apply Bool.orb_true_iff in H.
  destruct H as [H|H]; apply andb_prop in H; destruct H as [Hx Hy];
    apply Nat.leb_le in Hx, Hy; lia.
Qed.

Lemma dash_not_alnum : is_lower_alnum "-"%char = false.
Proof. reflexivity. Qed.

Lemma slug_aux_tail s p : slug_tail (slug_aux p true s).
Proof.
  revert p. induction s as [|c s IH]; intros p; simpl; [constructor|].
  destruct (is_lower_alnum (lower c)) eqn:E; [|apply IH].
  destruct p; simpl; [apply tail_dash | apply tail_char]; auto.
Qed.

Lemma slug_aux_ok s p : slug_ok (slug_aux p false s).
Proof.
  revert p. induction s as [|c s IH]; intros p; simpl; [now left|].
  destruct (is_lower_alnum (lower c)) eqn:E; [|apply IH].
  right. rewrite Bool.andb_false_r. exists (lower c), (slug_aux false true s).
  split; [reflexivity | split; [exact E | apply slug_aux_tail]].
Qed.

Lemma slug_aux_tail_id t : slug_tail t -> slug_aux false true t = t.
Proof.
  induction 1 as [|c t Hc _ IH|c t Hc _ IH]; simpl; [reflexivity| |].
  - rewrite (lower_alnum c Hc), Hc. simpl. now rewrite IH.
  - rewrite (lower_alnum c Hc), Hc. simpl. now rewrite IH.
Qed.

(** A slug is fixed by [slugify]. *)
Lemma slugify_slug_ok_id s : slug_ok s -> slugify s = s.
Proof.
  intros [->|(c & t & -> & Hc & Ht)]; [reflexivity|].
  unfold slugify. simpl. rewrite (lower_alnum c Hc), Hc. simpl.
  now rewrite slug_aux_tail_id.
Qed.

Lemma slug_tail_chars t c : slug_tail t -> In c (list_ascii_of_string t) ->
  is_lower_alnum c = true \/ c = "-"%char.
Proof.
  induction 1 as [|c' t Hc _ IH|c' t Hc _ IH]; simpl; [tauto| |];
    intros [<-|Hin]; auto.
  destruct Hin as [<-|Hin]; auto.
Qed.

(** ** Properties of [slugify] *)

(** Every slug is well formed: [a-z0-9] characters, and a dash only
    between two of them. *)
Lemma slugify_slug_ok s : slug_ok (slugify s).
Proof. apply slug_aux_ok. Qed.

Lemma slugify_idempotent s : slugify (slugify s) = slugify s.
Proof. apply slugify_slug_ok_id, slugify_slug_ok. Qed.

Lemma slug_ok_chars s c : slug_ok s -> In c (list_ascii_of_string s) ->
  is_lower_alnum c = true \/ c = "-"%char.
Proof.
  intros [->|(c0 & t & -> & Hc & Ht)]; simpl; [tauto|].
  intros [<-|Hin]; [auto | eapply slug_tail_chars; eauto].
Qed.

(** A slug has no "/", the MQTT topic level separator. *)
Lemma slugify_no_slash s : ~ In "/"%char (list_ascii_of_string (slugify s)).
Proof.
  intros Hin. destruct (slug_ok_chars _ _ (slugify_slug_ok s) Hin) as [H|H];
    discriminate.
Qed.

Example slugify_kitchen :
  slugify "Kitchen Ceiling Light"%string = "kitchen-ceiling-light"%string.
Proof. reflexivity. Qed.

(** Two different friendly names with the same slug. *)
Lemma slugify_collision :
  "Kitchen Light"%string <> "kitchen-light"%string /\
  slugify "Kitchen Light"%string = slugify "kitchen-light"%string.
Proof. split; [discriminate | vm_compute; reflexivity]. Qed.
