(* ===== verification/LampState.v ===== *)
(** * A lamp object's attributes: [class Lamp] of [src/dali2mqtt/lamp.py]

    The record of the attributes a [Lamp] object carries, the [level]
    property's getter, the two attribute assignments the operations use
    ([self.__level = z] and [self.associated_lamps = l]), and the two
    methods that read and write attributes only: [is_group] and
    [add_associated_lamp].  The lamps at
    the end are the concrete objects of the examples. *)

From Stdlib Require Import ZArith List String Lia.
From S2P Require Import Prelude PyValue Address.
Import ListNotations.
Local Open Scope Z_scope.
Local Open Scope py_scope.

(** The instance attributes of a [Lamp] object, as [__init__] assigns
    them (lines 37-59): [short_address], [friendly_name],
    [associated_lamps] (line 40, [None] until the first member is added;
    it holds references to other lamp objects, their identities in the
    store of [Group]), [device_name] (line 42), [min_physical_level],
    [min_level], [max_level] (lines 49-58) and [level], the private
    [__level] the [level] property reads (lines 99-102) and its setter
    writes.  [self.driver] (line 37) is not a field: the driver object
    is shared by every lamp and is the [B] of the [world B] each
    operation runs in. *)
Record Lamp := mkLamp {
  short_address : Address;
  friendly_name : string;
  device_name : string;
  associated_lamps : option (list nat);
  min_physical_level : PyVal;
  min_level : PyVal;
  max_level : PyVal;
  level : Z
}.

(** [self.__level = z], the assignment of lines 95, 97, 114, 120 and
    142. *)
Definition with_level (self : Lamp) (z : Z) : Lamp :=
  {| short_address := short_address self; friendly_name := friendly_name self;
     device_name := device_name self; associated_lamps := associated_lamps self;
     min_physical_level := min_physical_level self; min_level := min_level self;
     max_level := max_level self; level := z |}.

(** The [level] property's getter (lines 99-102): [return self.__level]. *)
Definition get_level (self : Lamp) : Z := level self.

(** [self.associated_lamps = l] (line 158). *)
Definition with_associated (self : Lamp) (l : option (list nat)) : Lamp :=
  {| short_address := short_address self; friendly_name := friendly_name self;
     device_name := device_name self; associated_lamps := l;
     min_physical_level := min_physical_level self; min_level := min_level self;
     max_level := max_level self; level := level self |}.

(** [is_group] (lines 153-154). *)
Definition is_group (self : Lamp) : bool :=
  match short_address self with Group _ => true | _ => false end.

(** [add_associated_lamp] (lines 156-159): [None] becomes [[]], then the
    reference is appended. *)
Definition add_associated_lamp (self : Lamp) (assoc : nat) : Lamp :=
  let l := match associated_lamps self with None => [] | Some l => l end in
  with_associated self (Some (l ++ [assoc])).

(** ** Example lamps

    The lamp of the spec's scenario A: bounds 86 and 254, level 150, on
    short address 3. *)

Definition kitchen : Lamp :=
  mkLamp (Short 3) "Kitchen Ceiling Light" "kitchen-ceiling-light" None
         (VInt 1) (VInt 86) (VInt 254) 150.

(** A lamp whose [min_level] is a non-int object. *)
Definition odd_lamp : Lamp :=
  mkLamp (Short 4) "Hall" "hall" None VObj VObj (VInt 254) 0.
