(* ===== verification/LampCore.v ===== *)
(** * The level setter of [src/dali2mqtt/lamp.py]

    The [level] property setter (lines 104-120) and its clamp: a non-zero
    int request is brought into [[min_level, max_level]] when the bounds
    are ints, an int is stored and sent in a DAPC, anything else stores 0
    and sends nothing.  It runs in [PyM (world B)] for any driver [B], so
    the log of [world] records the command it sends.  The theorems give
    the clamp policy on every branch, the byte range of the DAPC it sends,
    and the missing lower clamp when [min_level] is not an int; the
    invariant the setter keeps ([set_level_inv]) is the step lemma of the
    controller of [LampCtrl]. *)

From Stdlib Require Import ZArith List String Lia.
From S2P Require Import Prelude PyValue Address Bus LampState.
Import ListNotations.
Local Open Scope Z_scope.
Local Open Scope py_scope.

(** [isinstance(bound, int) and v < bound]. *)
Definition int_and_lt (v : Z) (bound : PyVal) : bool :=
  match bound with VInt b => v <? b | _ => false end.

(** [isinstance(bound, int) and v > bound]. *)
Definition int_and_gt (v : Z) (bound : PyVal) : bool :=
  match bound with VInt b => b <? v | _ => false end.

(** Lines 107-111 of the setter: a non-zero int below [min_level] becomes
    [min_level], else one above [max_level] becomes [max_level]. *)
Definition setter_clamp (min_level max_level value : PyVal) : PyVal :=
  match value with
  | VInt v =>
      if negb (v =? 0) then
        if int_and_lt v min_level then min_level
        else if int_and_gt v max_level then max_level
        else value
      else value
  | _ => value
  end.

Section Operations.
Context {B : Type} `{Driver B}.

(** The [level] property setter (lines 104-120): clamp, then for an int
    store it and send [DAPC(short_address, level)]; anything else stores
    0 and sends nothing. *)
Definition set_level (self : Lamp) (value : PyVal) : PyM (world B) Lamp :=
  match setter_clamp (min_level self) (max_level self) value with
  | VInt v =>
      let self' := with_level self v in
      send (DAPC (short_address self') (get_level self')) ;;; ret self'
  | _ => ret (with_level self 0)
  end.
End Operations.

(** ** The clamp policy *)

(** What the spec promises of a commit when both bounds are ints and
    ordered: 0 stays 0, anything else is brought into [[mn, mx]]. *)
Definition clamp_spec (mn mx v : Z) : Z :=
  if v =? 0 then 0 else Z.max mn (Z.min v mx).

(** The attributes that the setter's clamp reads are well formed: both
    bounds ints, in order. *)
Definition bounds_ok (self : Lamp) (mn mx : Z) : Prop :=
  min_level self = VInt mn /\ max_level self = VInt mx /\ mn <= mx.

(** The spec's invariant of a lamp: ordered int bounds, and the level off
    or between them. *)
Definition lamp_inv (self : Lamp) : Prop :=
  exists mn mx, bounds_ok self mn mx /\ (level self = 0 \/ mn <= level self <= mx).

Lemma with_level_bounds self z mn mx :
  bounds_ok self mn mx -> bounds_ok (with_level self z) mn mx.
Proof. tauto. Qed.

(** The clamp of an int is an int. *)
Lemma setter_clamp_int mn mx v :
  exists c, setter_clamp mn mx (VInt v) = VInt c.
Proof.
  unfold setter_clamp, int_and_lt, int_and_gt.
  destruct (v =? 0); simpl; [eauto|].
  destruct mn as [m| |], mx as [M| |]; zcase; eauto.
Qed.

(** With ordered int bounds the setter's if-chain computes [clamp_spec]. *)
Lemma setter_clamp_spec mn mx v :
  mn <= mx -> setter_clamp (VInt mn) (VInt mx) (VInt v) = VInt (clamp_spec mn mx v).
Proof.
  intros Hle. unfold setter_clamp, clamp_spec, int_and_lt, int_and_gt.
  zcase; simpl; f_equal; lia.
Qed.

Lemma clamp_spec_range mn mx v :
  mn <= mx -> clamp_spec mn mx v = 0 \/ mn <= clamp_spec mn mx v <= mx.
Proof. unfold clamp_spec. zcase; lia. Qed.

(** A level that is off or within the bounds is its own clamp. *)
Lemma clamp_spec_id mn mx t :
  t = 0 \/ mn <= t <= mx -> clamp_spec mn mx t = t.
Proof. unfold clamp_spec. zcase; lia. Qed.

(** Between two byte bounds, ordered or not, the setter's clamp of an int
    is a byte: each branch yields 0, the request within the bounds, or a
    bound. *)
Lemma setter_clamp_byte mn mx v :
  0 <= mn <= 255 -> 0 <= mx <= 255 ->
  exists c, setter_clamp (VInt mn) (VInt mx) (VInt v) = VInt c /\ 0 <= c <= 255.
Proof.
  intros Hmn Hmx. unfold setter_clamp, int_and_lt, int_and_gt.
  zcase; simpl; eexists; (split; [reflexivity | lia]).
Qed.

Section Runs.
Context {B : Type} `{Driver B}.

(** A commit of the int [c]: the lamp stores [c] and exactly one DAPC
    with [c] goes to the lamp's address. *)
Lemma set_level_commit self value c (w : world B) :
  setter_clamp (min_level self) (max_level self) value = VInt c ->
  exists w', set_level self value w = (Ok (with_level self c), w') /\
             sent w' = sent w ++ [DAPC (short_address self) c].
Proof.
  intros Hc. unfold set_level. rewrite Hc. unfold bind, ret, send. simpl.
  destruct (respond _ (bus w)) as [r b']. eexists. split; reflexivity.
Qed.

(** A value that is not an int resets the level and sends nothing. *)
Lemma set_level_reset self value (w : world B) :
  is_int value = false -> set_level self value w = (Ok (with_level self 0), w).
Proof. destruct value as [v| |]; simpl; try discriminate; reflexivity. Qed.

(** The setter changes no attribute but the level. *)
Lemma set_level_frame self value (w : world B) self' w' :
  set_level self value w = (Ok self', w') -> self' = with_level self (level self').
Proof.
  destruct (setter_clamp (min_level self) (max_level self) value) as [c| |] eqn:Hc.
  - destruct (set_level_commit self value c w Hc) as [w1 [E _]]. rewrite E.
    intros Hr. injection Hr as <- _. reflexivity.
  - unfold set_level. rewrite Hc. intros Hr. injection Hr as <- _. reflexivity.
  - unfold set_level. rewrite Hc. intros Hr. injection Hr as <- _. reflexivity.
Qed.

(** The setter never raises. *)
Lemma set_level_total self value (w : world B) :
  exists self' w', set_level self value w = (Ok self', w').
Proof.
  destruct (setter_clamp (min_level self) (max_level self) value) as [c| |] eqn:Hc.
  - destruct (set_level_commit self value c w Hc) as [w' [E _]].
    exists (with_level self c), w'. exact E.
  - unfold set_level. rewrite Hc. do 2 eexists. reflexivity.
  - unfold set_level. rewrite Hc. do 2 eexists. reflexivity.
Qed.

(** The setter keeps the bounds and leaves the level in them or off. *)
Lemma set_level_inv self mn mx value (w : world B) self' w' :
  bounds_ok self mn mx -> set_level self value w = (Ok self', w') ->
  bounds_ok self' mn mx /\ (level self' = 0 \/ mn <= level self' <= mx).
Proof.
  intros Hb Hrun. pose proof Hb as (E1 & E2 & Hle).
  destruct value as [v| |].
  - assert (Hc : setter_clamp (min_level self) (max_level self) (VInt v)
                 = VInt (clamp_spec mn mx v))
      by (rewrite E1, E2; now apply setter_clamp_spec).
    destruct (set_level_commit self _ _ w Hc) as [w1 [Hr _]].
    rewrite Hr in Hrun. injection Hrun as <- <-.
    split; [now apply with_level_bounds | now apply clamp_spec_range].
  - unfold set_level in Hrun. simpl in Hrun. injection Hrun as <- <-. tauto.
  - unfold set_level in Hrun. simpl in Hrun. injection Hrun as <- <-. tauto.
Qed.
End Runs.

(** ** Properties of the setter *)

Section Properties.
Context {B : Type} `{Driver B}.

(** C1: with ordered int bounds, the setter commits 0 for 0 and
    otherwise the request brought into [[min_level, max_level]]; it
    stores that level and sends exactly one DAPC with it to the lamp's
    address. *)
Theorem set_level_clamps (self : Lamp) mn mx v (w : world B) :
  bounds_ok self mn mx ->
  exists w', set_level self (VInt v) w = (Ok (with_level self (clamp_spec mn mx v)), w')
             /\ sent w' = sent w ++ [DAPC (short_address self) (clamp_spec mn mx v)].
Proof.
  intros (E1 & E2 & Hle). apply set_level_commit.
  rewrite E1, E2. now apply setter_clamp_spec.
Qed.

(** C8: when [min_level] is not an int (the constructor's fallback to a
    non-int physical minimum), the setter does not clamp from below: a
    negative request is stored and handed to [gear.DAPC] as it is.
    python-dali's [DAPC] class is a library and is modelled as accepting
    any int; if it checks the range, the request raises there instead of
    reaching the bus, but the lower clamp is skipped either way. *)
Theorem set_level_negative_unclamped (self : Lamp) mx v (w : world B) :
  min_level self = VObj -> max_level self = VInt mx -> 0 <= mx -> v < 0 ->
  exists w', set_level self (VInt v) w = (Ok (with_level self v), w')
             /\ sent w' = sent w ++ [DAPC (short_address self) v].
Proof.
  intros E1 E2 Hmx Hv. apply set_level_commit. rewrite E1, E2.
  unfold setter_clamp, int_and_lt, int_and_gt. zcase; simpl; try lia; reflexivity.
Qed.

(** C25: the level of every DAPC the setter sends fits the byte of a DALI
    forward frame when both bounds are ints in [0, 255], ordered or not:
    the clamp yields 0, the request within the bounds, or a bound; and the
    lamp stores the level it sent. *)
Theorem set_level_dapc_byte (self : Lamp) mn mx v (w : world B) self' w' :
  min_level self = VInt mn -> max_level self = VInt mx ->
  0 <= mn <= 255 -> 0 <= mx <= 255 ->
  set_level self (VInt v) w = (Ok self', w') ->
  exists c, self' = with_level self c /\
            sent w' = sent w ++ [DAPC (short_address self) c] /\ 0 <= c <= 255.
Proof.
  intros E1 E2 Hmn Hmx Hrun.
  destruct (setter_clamp_byte mn mx v Hmn Hmx) as (c & Hc & Hbyte).
  rewrite <- E1, <- E2 in Hc.
  destruct (set_level_commit self _ _ w Hc) as (w1 & Hr & Hs).
  rewrite Hr in Hrun. injection Hrun as <- <-. eauto.
Qed.
End Properties.

(** ** Witnesses on the example lamps; the bus is a [Script] driver. *)

Lemma kitchen_bounds : bounds_ok kitchen 86 254.
Proof. split; [reflexivity | split; [reflexivity | lia]]. Qed.

Lemma kitchen_inv : lamp_inv kitchen.
Proof. exists 86, 254. split; [exact kitchen_bounds | simpl; lia]. Qed.

Lemma set_level_clamps_witness :
  bounds_ok kitchen 86 254 /\
  exists w', set_level kitchen (VInt 50) (script_world []) = (Ok (with_level kitchen 86), w')
             /\ sent w' = [DAPC (Short 3) 86].
Proof.
  split; [exact kitchen_bounds|].
  exact (set_level_clamps kitchen 86 254 50 (script_world []) kitchen_bounds).
Defined.

Lemma set_level_negative_unclamped_witness :
  min_level odd_lamp = VObj /\ max_level odd_lamp = VInt 254 /\ (0 <= 254)%Z /\ (-5 < 0)%Z /\
  exists w', set_level odd_lamp (VInt (-5)) (script_world []) =
               (Ok (with_level odd_lamp (-5)), w')
             /\ sent w' = [DAPC (Short 4) (-5)].
Proof.
  split; [reflexivity|]. split; [reflexivity|]. split; [lia|]. split; [lia|].
  apply (set_level_negative_unclamped odd_lamp 254 (-5) (script_world []));
    [reflexivity | reflexivity | lia | lia].
Defined.

Lemma set_level_dapc_byte_witness :
  min_level kitchen = VInt 86 /\ max_level kitchen = VInt 254 /\
  (0 <= 86 <= 255)%Z /\ (0 <= 254 <= 255)%Z /\
  exists c, with_level kitchen 254 = with_level kitchen c /\
            sent (mkWorld {| answers := [] |} [DAPC (Short 3) 254]) =
              sent (script_world []) ++ [DAPC (short_address kitchen) c] /\
            (0 <= c <= 255)%Z.
Proof.
  split; [reflexivity|]. split; [reflexivity|]. split; [lia|]. split; [lia|].
  apply (set_level_dapc_byte kitchen 86 254 1000 (script_world []));
    [reflexivity | reflexivity | lia | lia | reflexivity].
Defined.
