(* ===== verification/LampPredict.v ===== *)
(** * The change predictor: [level_change_needed] of [src/dali2mqtt/lamp.py]

    Lines 122-134: an int request of 0 is always a change; any other int
    request is clamped by the predictor's own copy of the setter's clamp
    and compared with the cached level; anything else is no change.  The
    bridge calls it before the setter to drop redundant bus writes
    ([Serial]).  The theorems: the predictor agrees with the setter of
    [LampCore] (right after a commit it predicts no change, and in general
    it predicts a change exactly when the setter would make one, off
    apart), and on a non-int request it predicts no change while the
    setter resets the level. *)

From Stdlib Require Import ZArith List String Lia.
From S2P Require Import Prelude PyValue Address Bus LampState LampCore.
Import ListNotations.
Local Open Scope Z_scope.
Local Open Scope py_scope.

(** [level_change_needed] (lines 122-134), with its own copy of the clamp
    (lines 127-130). *)
Definition level_change_needed (self : Lamp) (value : PyVal) : bool :=
  match value with
  | VInt v =>
      if v =? 0 then true
      else
        let value' :=
          if int_and_lt v (min_level self) then min_level self
          else if int_and_gt v (max_level self) then max_level self
          else value in
        negb (py_eq value' (VInt (get_level self)))
  | _ => false
  end.

(** The copy of the clamp in [level_change_needed] agrees with the
    setter's: the predictor compares the setter's commit with the level. *)
Lemma level_change_needed_clamp self v :
  v <> 0 ->
  level_change_needed self (VInt v) =
  negb (py_eq (setter_clamp (min_level self) (max_level self) (VInt v))
              (VInt (level self))).
Proof.
  intros Hv. unfold level_change_needed, setter_clamp.
  destruct (Z.eqb_spec v 0); [contradiction|]. reflexivity.
Qed.

(** ** Properties of the predictor *)

Section Properties.
Context {B : Type} `{Driver B}.

(** C3: the predictor agrees with the committer: right after the setter
    committed a non-zero request, [level_change_needed] on the same
    request is false. *)
Theorem level_change_needed_after_set (self : Lamp) v (w : world B) self' w' :
  v <> 0 -> set_level self (VInt v) w = (Ok self', w') ->
  level_change_needed self' (VInt v) = false.
Proof.
  intros Hv Hrun. destruct (setter_clamp_int (min_level self) (max_level self) v) as [c Hc].
  destruct (set_level_commit self _ _ w Hc) as [w1 [Hr _]].
  rewrite Hr in Hrun. injection Hrun as <- <-.
  rewrite level_change_needed_clamp by assumption.
  cbn [with_level min_level max_level level]. rewrite Hc. simpl.
  now rewrite Z.eqb_refl.
Qed.

(** C4: [level_change_needed] on an int request is true exactly when the
    request is 0 (off is always actionable) or the setter would change
    the cached level. *)
Theorem level_change_needed_iff (self : Lamp) v (w : world B) self' w' :
  set_level self (VInt v) w = (Ok self', w') ->
  (level_change_needed self (VInt v) = true <-> v = 0 \/ level self' <> level self).
Proof.
  intros Hrun. destruct (Z.eq_dec v 0) as [->|Hv].
  - simpl. tauto.
  - destruct (setter_clamp_int (min_level self) (max_level self) v) as [c Hc].
    destruct (set_level_commit self _ _ w Hc) as [w1 [Hr _]].
    rewrite Hr in Hrun. injection Hrun as <- <-.
    rewrite level_change_needed_clamp, Hc by assumption.
    cbn [with_level level py_eq negb].
    destruct (Z.eqb_spec c (level self)); simpl; split; intros; try tauto; try lia.
Qed.

(** C5: a request that is not an int is predicted as no change, yet the
    setter stores level 0 and sends nothing: the cached level is reset
    while the ballast keeps its level. *)
Theorem set_level_non_int (self : Lamp) value (w : world B) :
  is_int value = false ->
  level_change_needed self value = false /\
  set_level self value w = (Ok (with_level self 0), w).
Proof.
  intros Hv. split; [destruct value; simpl in *; congruence | now apply set_level_reset].
Qed.
End Properties.

(** ** Witnesses on the kitchen lamp *)

Lemma level_change_needed_after_set_witness :
  (50 <> 0)%Z /\ level_change_needed (with_level kitchen 86) (VInt 50) = false.
Proof.
  split; [lia|].
  apply (level_change_needed_after_set kitchen 50 (script_world []) _
           (mkWorld {| answers := [] |} [DAPC (Short 3) 86])); [lia | reflexivity].
Defined.

Lemma level_change_needed_iff_witness :
  set_level kitchen (VInt 300) (script_world []) =
    (Ok (with_level kitchen 254), mkWorld {| answers := [] |} [DAPC (Short 3) 254]) /\
  (level_change_needed kitchen (VInt 300) = true <->
   (300 = 0 \/ level (with_level kitchen 254) <> level kitchen))%Z.
Proof.
  split; [reflexivity|].
  apply (level_change_needed_iff kitchen 300 (script_world []) (with_level kitchen 254)
           (mkWorld {| answers := [] |} [DAPC (Short 3) 254])).
  reflexivity.
Defined.

Lemma set_level_non_int_witness :
  is_int VObj = false /\
  level_change_needed kitchen VObj = false /\
  set_level kitchen VObj (script_world []) = (Ok (with_level kitchen 0), script_world []).
Proof.
  split; [reflexivity|]. apply set_level_non_int. reflexivity.
Defined.
