(* ===== verification/LampOps.v ===== *)
(** * Refresh and off: [actual_level] and [off] of [src/dali2mqtt/lamp.py]

    [actual_level] (lines 91-97) queries the ballast and stores its level
    as reported, 0 for a non-int value; [off] (lines 139-142) sends Off
    and stores 0.  The theorems give each one's result and bus traffic on
    every branch, the [AttributeError] of a missing reply included. *)

From Stdlib Require Import ZArith List String Lia.
From S2P Require Import Prelude PyValue Address Bus LampState LampCore.
Import ListNotations.
Local Open Scope Z_scope.
Local Open Scope py_scope.

Section Operations.
Context {B : Type} `{Driver B}.

(** [actual_level] (lines 91-97): query the ballast and store its level,
    or 0 when the reply's value is not an int. *)
Definition actual_level (self : Lamp) : PyM (world B) Lamp :=
  r <- send (QueryActualLevel (short_address self)) ;;
  local_level <- value_of r ;;
  match local_level with
  | VInt z => ret (with_level self z)
  | _ => ret (with_level self 0)
  end.

(** [off] (lines 139-142). *)
Definition off (self : Lamp) : PyM (world B) Lamp :=
  send (Off (short_address self)) ;;; ret (with_level self 0).
End Operations.

Section Runs.
Context {B : Type} `{Driver B}.

Lemma off_run self (w : world B) :
  exists w', off self w = (Ok (with_level self 0), w') /\
             sent w' = sent w ++ [Off (short_address self)].
Proof.
  unfold off, bind, ret, send. destruct (respond _ (bus w)) as [r b'].
  eexists. split; reflexivity.
Qed.

Lemma off_inv self (w : world B) self' w' :
  off self w = (Ok self', w') -> forall mn mx, bounds_ok self mn mx ->
  bounds_ok self' mn mx /\ level self' = 0.
Proof.
  destruct (off_run self w) as [w1 [Hr _]]. rewrite Hr.
  intros Hrun. injection Hrun as <- <-. split; [now apply with_level_bounds | reflexivity].
Qed.
End Runs.

(** ** Properties *)

Section Properties.
Context {B : Type} `{Driver B}.

(** C6: [actual_level] sends one query and stores the ballast's level as
    it is, without the setter's clamp; a non-int value stores 0, and a
    missing reply raises [AttributeError] after the query was sent. *)
Theorem actual_level_spec (self : Lamp) (w : world B) r b' :
  respond (QueryActualLevel (short_address self)) (bus w) = (r, b') ->
  actual_level self w =
    (match r with
     | Some (VInt z) => Ok (with_level self z)
     | Some _ => Ok (with_level self 0)
     | None => Raise AttributeError
     end, mkWorld b' (sent w ++ [QueryActualLevel (short_address self)])).
Proof.
  intros Hr. unfold actual_level, bind, send. rewrite Hr.
  destruct r as [[z| |]|]; reflexivity.
Qed.

(** C7: [off] stores 0 and sends Off; applied twice it leaves the same
    lamp and has sent two Off commands. *)
Theorem off_twice (self : Lamp) (w : world B) :
  exists w1 w2,
    off self w = (Ok (with_level self 0), w1) /\
    off (with_level self 0) w1 = (Ok (with_level self 0), w2) /\
    sent w2 = sent w ++ [Off (short_address self); Off (short_address self)].
Proof.
  destruct (off_run self w) as [w1 [E1 S1]].
  destruct (off_run (with_level self 0) w1) as [w2 [E2 S2]].
  exists w1, w2. split; [exact E1|]. split; [exact E2|].
  rewrite S2, S1, <- app_assoc. reflexivity.
Qed.
End Properties.

(** ** Witness on the kitchen lamp *)

Lemma actual_level_spec_witness :
  respond (QueryActualLevel (Short 3)) {| answers := [Some (VInt 255)] |} =
    (Some (VInt 255), {| answers := [] |}) /\
  actual_level kitchen (script_world [Some (VInt 255)]) =
    (Ok (with_level kitchen 255),
     mkWorld {| answers := [] |} [QueryActualLevel (Short 3)]).
Proof.
  split; [reflexivity|].
  exact (actual_level_spec kitchen (script_world [Some (VInt 255)]) _ _ eq_refl).
Defined.
