(* ===== verification/LampCtrl.v ===== *)
(** * The lamp controller as a state machine

    A step is one of the operations a caller serialises on a lamp: the
    level setter, [off] and, when [refresh] allows it, [actual_level].
    The theorem: from a lamp satisfying the spec's invariant
    ([LampCore.lamp_inv]), every state reached by setter and [off] steps
    satisfies it.  A refresh step need not: [actual_level] stores the
    ballast's level unclamped ([LampOps.actual_level_spec]). *)

From Stdlib Require Import ZArith List String Lia.
From S2P Require Import Prelude PyValue Address Bus LampState LampCore LampOps.
Import ListNotations.
Local Open Scope Z_scope.
Local Open Scope py_scope.

Section Controller.
Context {B : Type} `{Driver B}.

Inductive ctrl_step (refresh : bool) : Lamp -> world B -> Lamp -> world B -> Prop :=
| step_set self value w self' w' :
    set_level self value w = (Ok self', w') -> ctrl_step refresh self w self' w'
| step_off self w self' w' :
    off self w = (Ok self', w') -> ctrl_step refresh self w self' w'
| step_refresh self w self' w' :
    refresh = true -> actual_level self w = (Ok self', w') ->
    ctrl_step refresh self w self' w'.

Inductive reachable (refresh : bool) (s : Lamp) (w : world B) :
  Lamp -> world B -> Prop :=
| reach_refl : reachable refresh s w s w
| reach_step s1 w1 s2 w2 :
    reachable refresh s w s1 w1 -> ctrl_step refresh s1 w1 s2 w2 ->
    reachable refresh s w s2 w2.

(** C2: every state reached from a lamp satisfying the invariant by
    setter and [off] steps satisfies it: the bounds are unchanged and the
    level is 0 or between them. *)
Theorem reachable_inv (s : Lamp) (w : world B) s' w' :
  lamp_inv s -> reachable false s w s' w' -> lamp_inv s'.
Proof.
  intros Hinv Hr. induction Hr as [|s1 w1 s2 w2 _ IH Hs]; [assumption|].
  destruct IH as (mn & mx & Hb & _).
  inversion Hs; subst.
  - exists mn, mx. eapply set_level_inv; eauto.
  - exists mn, mx. destruct (off_inv _ _ _ _ H0 mn mx Hb). auto.
  - discriminate.
Qed.

End Controller.

(** ** Witnesses on the kitchen lamp *)

Lemma reachable_inv_witness :
  lamp_inv kitchen /\
  reachable false kitchen (script_world []) (with_level kitchen 86)
            (mkWorld {| answers := [] |} [DAPC (Short 3) 86]) /\
  lamp_inv (with_level kitchen 86).
Proof.
  assert (Hr : reachable false kitchen (script_world []) (with_level kitchen 86)
                 (mkWorld {| answers := [] |} [DAPC (Short 3) 86])).
  { eapply reach_step; [apply reach_refl|]. apply (step_set _ _ (VInt 50)). reflexivity. }
  split; [exact kitchen_inv|]. split; [exact Hr|].
  exact (reachable_inv _ _ _ _ kitchen_inv Hr).
Defined.

