(* ===== verification/LampInit.v ===== *)
(** * Construction of a lamp: [Lamp.__init__] of [src/dali2mqtt/lamp.py]

    The constructor looks up the log level, derives the device name, and
    seeds the bounds from four bus queries, in this order (lines 36-59):
    the physical minimum (a missing reply is caught and gives [None]), the
    minimum level (a non-int falls back to the physical minimum when it is
    truthy, else 86), the maximum level (a non-int falls back to 254) and
    the actual level, which goes through the level setter: it is clamped
    and sent back to the ballast in a DAPC.  Only the first query is
    protected: a missing reply to the others raises [AttributeError].
    Whatever the replies, [max_level] ends up an int, and [min_level] an
    int or a copy of the physical minimum.  The raising paths are in
    [InitErrors]. *)

From Stdlib Require Import ZArith List String Lia.
From S2P Require Import Prelude PyValue Address Bus Slug LampState LampCore LampPredict LampOps LampCtrl.
Import ListNotations.
Local Open Scope py_scope.

(** [consts.ALL_SUPPORTED_LOG_LEVELS] (consts.py is not under src/). *)
Definition ALL_SUPPORTED_LOG_LEVELS : list string :=
  ["critical"; "error"; "warning"; "info"; "debug"]%string.

(** [logger.setLevel(ALL_SUPPORTED_LOG_LEVELS[log_level])]: a name that is
    not a key raises [KeyError]; the logger itself is not modelled. *)
Definition set_log_level {S} (log_level : string) : PyM S unit :=
  if existsb (String.eqb log_level) ALL_SUPPORTED_LOG_LEVELS then ret tt
  else raise KeyError.

(** Lines 54-55. *)
Definition min_level_fallback (min_level min_physical_level : PyVal) : PyVal :=
  if is_int min_level then min_level
  else if truthy min_physical_level then min_physical_level
  else VInt 86.

(** Lines 57-58. *)
Definition max_level_fallback (max_level : PyVal) : PyVal :=
  if is_int max_level then max_level else VInt 254.

Section Init.
Context {B : Type} `{Driver B}.

(** [Lamp(log_level, driver, friendly_name, short_address)].  The level
    field of the record passed to the setter is a placeholder: the setter
    assigns [__level] on each of its branches. *)
Definition lamp_init (log_level friendly_name : string) (short_address : Address)
  : PyM (world B) Lamp :=
  set_log_level log_level ;;;
  r <- send (QueryPhysicalMinimum short_address) ;;
  min_physical_level <- try_except (value_of r) (fun _ => ret VNone) ;;
  r <- send (QueryMinLevel short_address) ;;
  min0 <- value_of r ;;
  let min_level := min_level_fallback min0 min_physical_level in
  r <- send (QueryMaxLevel short_address) ;;
  max0 <- value_of r ;;
  let max_level := max_level_fallback max0 in
  r <- send (QueryActualLevel short_address) ;;
  v <- value_of r ;;
  set_level (mkLamp short_address friendly_name (slugify friendly_name) None
                    min_physical_level min_level max_level 0) v.
End Init.

(** The physical minimum the constructor keeps from a reply. *)
Definition physical_of (r : reply) : PyVal :=
  match r with Some v => v | None => VNone end.

(** The four queries of the constructor, in order. *)
Definition init_queries (a : Address) : list Cmd :=
  [QueryPhysicalMinimum a; QueryMinLevel a; QueryMaxLevel a; QueryActualLevel a].

(** The lamp handed to the setter. *)
Definition seeded (name : string) (a : Address) (r1 : reply) (v2 v3 : PyVal) : Lamp :=
  mkLamp a name (slugify name) None (physical_of r1)
         (min_level_fallback v2 (physical_of r1)) (max_level_fallback v3) 0.

Section Runs.
Context {B : Type} `{Driver B}.

Lemma log_level_ok {S} log (s : S) :
  In log ALL_SUPPORTED_LOG_LEVELS -> set_log_level log s = (Ok tt, s).
Proof.
  intros Hin. unfold set_log_level.
  replace (existsb _ _) with true; [reflexivity|].
  symmetry. apply existsb_exists. exists log. split; [exact Hin | apply String.eqb_refl].
Qed.

Lemma log_level_bad {S} log (s : S) :
  ~ In log ALL_SUPPORTED_LOG_LEVELS -> set_log_level log s = (Raise KeyError, s).
Proof.
  intros Hlog. unfold set_log_level.
  replace (existsb _ _) with false; [reflexivity|].
  symmetry. apply Bool.not_true_iff_false. intros Hex.
  apply existsb_exists in Hex as (x & Hin & Hx). apply String.eqb_eq in Hx.
  subst x. contradiction.
Qed.

(** A run whose three unprotected replies are present: four queries, then
    the setter on the seeded lamp. *)
Lemma lamp_init_run log name a (w : world B) r1 b1 v2 b2 v3 b3 v4 b4 :
  In log ALL_SUPPORTED_LOG_LEVELS ->
  respond (QueryPhysicalMinimum a) (bus w) = (r1, b1) ->
  respond (QueryMinLevel a) b1 = (Some v2, b2) ->
  respond (QueryMaxLevel a) b2 = (Some v3, b3) ->
  respond (QueryActualLevel a) b3 = (Some v4, b4) ->
  lamp_init log name a w =
    set_level (seeded name a r1 v2 v3) v4 (mkWorld b4 (sent w ++ init_queries a)).
Proof.
  intros Hlog H1 H2 H3 H4. unfold lamp_init, bind at 1. rewrite (log_level_ok _ _ Hlog).
  unfold bind, send, try_except. cbn [bus sent]. rewrite H1. cbn [bus sent].
  destruct r1 as [v1|]; cbn; rewrite H2; cbn; rewrite H3; cbn; rewrite H4; cbn;
    rewrite <- !app_assoc; reflexivity.
Qed.
End Runs.

Lemma max_level_fallback_int v : is_int (max_level_fallback v) = true.
Proof. destruct v; reflexivity. Qed.

(** The fallback for [min_level] is an int unless it is the physical
    minimum, kept for being truthy. *)
Lemma min_level_fallback_type m p :
  is_int (min_level_fallback m p) = true \/
  (min_level_fallback m p = p /\ truthy p = true).
Proof.
  unfold min_level_fallback.
  destruct (is_int m) eqn:Em; [now left|].
  destruct (truthy p) eqn:Ep; [now right | now left].
Qed.

(** Whatever the bus answered, a lamp the constructor returns has an int
    [max_level]. *)
Lemma lamp_init_max_int {B} `{Driver B} log name a (w : world B) L w' :
  lamp_init log name a w = (Ok L, w') -> is_int (max_level L) = true.
Proof.
  unfold lamp_init. intros Hr. peel_binds Hr.
  rewrite (set_level_frame _ _ _ _ _ Hr). apply max_level_fallback_int.
Qed.

(** ** Construction with present replies *)

Section Seeding.
Context {B : Type} `{Driver B}.
Variables (log name : string) (a : Address) (w : world B) (r1 : reply)
          (b1 b2 b3 b4 : B) (v2 v3 v4 : PyVal).
Hypothesis Hlog : In log ALL_SUPPORTED_LOG_LEVELS.
Hypothesis H1 : respond (QueryPhysicalMinimum a) (bus w) = (r1, b1).
Hypothesis H2 : respond (QueryMinLevel a) b1 = (Some v2, b2).
Hypothesis H3 : respond (QueryMaxLevel a) b2 = (Some v3, b3).
Hypothesis H4 : respond (QueryActualLevel a) b3 = (Some v4, b4).

(** C9: when the physical minimum is absent or falsy and the other three
    replies are not ints, the lamp gets [min_level] 86, [max_level] 254
    and level 0, and the constructor has sent the four queries and
    nothing else. *)
Theorem lamp_init_fallbacks :
  truthy (physical_of r1) = false -> is_int v2 = false -> is_int v3 = false ->
  is_int v4 = false ->
  exists L w', lamp_init log name a w = (Ok L, w') /\
    min_level L = VInt 86 /\ max_level L = VInt 254 /\ level L = 0%Z /\
    sent w' = sent w ++ init_queries a.
Proof.
  intros Ht E2 E3 E4. rewrite (lamp_init_run log name a w r1 b1 v2 b2 v3 b3 v4 b4); auto.
  rewrite set_level_reset by exact E4. do 2 eexists. split; [reflexivity|].
  unfold seeded, min_level_fallback, max_level_fallback. cbn.
  rewrite E2, E3, Ht. auto.
Qed.

(** C10: with int bounds [mn <= mx] and an int actual level [z], the
    constructor stores [clamp_spec mn mx z] and, besides the four queries,
    sends a DAPC with it: construction writes to the bus, where the spec
    (section 4.2) allows only reads. *)
Theorem lamp_init_sends_dapc mn mx z :
  v2 = VInt mn -> v3 = VInt mx -> (mn <= mx)%Z -> v4 = VInt z ->
  exists w', lamp_init log name a w =
               (Ok (with_level (seeded name a r1 v2 v3) (clamp_spec mn mx z)), w') /\
             sent w' = sent w ++ init_queries a ++ [DAPC a (clamp_spec mn mx z)].
Proof.
  intros -> -> Hle ->. rewrite (lamp_init_run log name a w r1 b1 (VInt mn) b2 (VInt mx) b3 (VInt z) b4); auto.
  destruct (set_level_commit (seeded name a r1 (VInt mn) (VInt mx)) (VInt z)
              (clamp_spec mn mx z) (mkWorld b4 (sent w ++ init_queries a)))
    as [w' [E S]].
  { now apply setter_clamp_spec. }
  exists w'. split; [exact E|]. rewrite S. cbn [sent]. now rewrite app_assoc.
Qed.

(** C11: when the bounds the constructor settles on are ordered ints, the
    lamp it returns satisfies the invariant of [LampCore.lamp_inv], and its
    device name is the slug of its friendly name. *)
Theorem lamp_init_inv mn mx :
  min_level_fallback v2 (physical_of r1) = VInt mn ->
  max_level_fallback v3 = VInt mx -> (mn <= mx)%Z ->
  exists L w', lamp_init log name a w = (Ok L, w') /\ lamp_inv L /\
               device_name L = slugify name /\ slug_ok (device_name L).
Proof.
  intros E2 E3 Hle. rewrite (lamp_init_run log name a w r1 b1 v2 b2 v3 b3 v4 b4); auto.
  destruct (set_level_total (seeded name a r1 v2 v3) v4
              (mkWorld b4 (sent w ++ init_queries a))) as (L & w' & E).
  exists L, w'. split; [exact E|].
  assert (Hb : bounds_ok (seeded name a r1 v2 v3) mn mx) by (repeat split; assumption).
  destruct (set_level_inv _ _ _ _ _ _ _ Hb E) as [Hb' Hl].
  assert (Hd : device_name L = slugify name).
  { now rewrite (set_level_frame _ _ _ _ _ E). }
  split; [exists mn, mx; auto|]. split; [exact Hd|]. rewrite Hd. apply slugify_slug_ok.
Qed.

(** C12: when the minimum-level reply is not an int and the physical
    minimum is a non-int object, the constructor copies that object into
    [min_level]: the lamp's lower bound is not an int, so the setter's
    lower clamp is skipped for it (see [LampCore.set_level_negative_unclamped]). *)
Theorem lamp_init_min_level_obj :
  physical_of r1 = VObj -> is_int v2 = false ->
  exists L w', lamp_init log name a w = (Ok L, w') /\ min_level L = VObj.
Proof.
  intros E1 E2. rewrite (lamp_init_run log name a w r1 b1 v2 b2 v3 b3 v4 b4); auto.
  destruct (set_level_total (seeded name a r1 v2 v3) v4
              (mkWorld b4 (sent w ++ init_queries a))) as (L & w' & E).
  exists L, w'. split; [exact E|].
  rewrite (set_level_frame _ _ _ _ _ E). cbn.
  unfold min_level_fallback. now rewrite E2, E1.
Qed.
End Seeding.

(** ** The types of the attributes *)

(** C26: whatever the bus answers, a lamp the constructor returns has an
    int [max_level], a [min_level] that is an int or else the (truthy)
    physical minimum itself, the address and name it was given, the slug
    of that name as device name, and no associated lamps: the only
    non-int bound a constructed lamp can carry is a copied physical
    minimum. *)
Theorem lamp_init_types {B} `{Driver B} log name a (w : world B) L w' :
  lamp_init log name a w = (Ok L, w') ->
  is_int (max_level L) = true /\
  (is_int (min_level L) = true \/
   (min_level L = min_physical_level L /\ truthy (min_physical_level L) = true)) /\
  short_address L = a /\ friendly_name L = name /\
  device_name L = slugify name /\ associated_lamps L = None.
Proof.
  unfold lamp_init. intros Hr. peel_binds Hr.
  rewrite (set_level_frame _ _ _ _ _ Hr). cbn.
  split; [apply max_level_fallback_int|]. split; [apply min_level_fallback_type|]. auto.
Qed.

(** ** Witnesses: a lamp on short address 5 with a scripted bus *)

Lemma info_supported : In "info"%string ALL_SUPPORTED_LOG_LEVELS.
Proof. simpl. tauto. Qed.

(** Scenario E of the spec: every read fails. *)
Lemma lamp_init_fallbacks_witness :
  exists L w', lamp_init "info" "Hall" (Short 5)
                 (script_world [None; Some VObj; Some VNone; Some VObj]) = (Ok L, w') /\
    min_level L = VInt 86 /\ max_level L = VInt 254 /\ level L = 0%Z /\
    sent w' = init_queries (Short 5).
Proof.
  apply (@lamp_init_fallbacks Script Script_driver "info" "Hall" (Short 5)
           (script_world [None; Some VObj; Some VNone; Some VObj]) None
           {| answers := [Some VObj; Some VNone; Some VObj] |}
           {| answers := [Some VNone; Some VObj] |} {| answers := [Some VObj] |}
           {| answers := [] |} VObj VNone VObj info_supported);
    reflexivity.
Defined.

Lemma lamp_init_sends_dapc_witness :
  exists w', lamp_init "info" "Hall" (Short 5)
               (script_world [Some (VInt 1); Some (VInt 86); Some (VInt 254); Some (VInt 40)]) =
             (Ok (with_level (seeded "Hall" (Short 5) (Some (VInt 1)) (VInt 86) (VInt 254)) 86), w')
             /\ sent w' = init_queries (Short 5) ++ [DAPC (Short 5) 86].
Proof.
  apply (@lamp_init_sends_dapc Script Script_driver "info" "Hall" (Short 5)
           (script_world [Some (VInt 1); Some (VInt 86); Some (VInt 254); Some (VInt 40)])
           (Some (VInt 1)) {| answers := [Some (VInt 86); Some (VInt 254); Some (VInt 40)] |}
           {| answers := [Some (VInt 254); Some (VInt 40)] |} {| answers := [Some (VInt 40)] |}
           {| answers := [] |} (VInt 86) (VInt 254) (VInt 40) info_supported eq_refl eq_refl eq_refl eq_refl 86%Z 254%Z 40%Z);
    try reflexivity; lia.
Defined.

Lemma lamp_init_inv_witness :
  exists L w', lamp_init "info" "Kitchen Ceiling Light" (Short 5)
                 (script_world [None; Some VObj; Some (VInt 254); Some (VInt 300)]) = (Ok L, w') /\
    lamp_inv L /\ device_name L = slugify "Kitchen Ceiling Light" /\ slug_ok (device_name L).
Proof.
  apply (@lamp_init_inv Script Script_driver "info" "Kitchen Ceiling Light" (Short 5)
           (script_world [None; Some VObj; Some (VInt 254); Some (VInt 300)]) None
           {| answers := [Some VObj; Some (VInt 254); Some (VInt 300)] |}
           {| answers := [Some (VInt 254); Some (VInt 300)] |} {| answers := [Some (VInt 300)] |}
           {| answers := [] |} VObj (VInt 254) (VInt 300) info_supported eq_refl eq_refl eq_refl eq_refl 86%Z 254%Z);
    try reflexivity; lia.
Defined.

Lemma lamp_init_min_level_obj_witness :
  exists L w', lamp_init "info" "Hall" (Short 5)
                 (script_world [Some VObj; Some VNone; Some (VInt 254); Some (VInt 0)]) = (Ok L, w') /\
    min_level L = VObj.
Proof.
  apply (@lamp_init_min_level_obj Script Script_driver "info" "Hall" (Short 5)
           (script_world [Some VObj; Some VNone; Some (VInt 254); Some (VInt 0)]) (Some VObj)
           {| answers := [Some VNone; Some (VInt 254); Some (VInt 0)] |}
           {| answers := [Some (VInt 254); Some (VInt 0)] |} {| answers := [Some (VInt 0)] |}
           {| answers := [] |} VNone (VInt 254) (VInt 0) info_supported);
    reflexivity.
Defined.

Lemma lamp_init_types_witness :
  lamp_init "info" "Hall" (Short 5)
    (script_world [Some VObj; Some VNone; Some VObj; Some (VInt 0)]) =
    (Ok (with_level (seeded "Hall" (Short 5) (Some VObj) VNone VObj) 0),
     mkWorld {| answers := [] |} (init_queries (Short 5) ++ [DAPC (Short 5) 0])) /\
  is_int (max_level (with_level (seeded "Hall" (Short 5) (Some VObj) VNone VObj) 0)) = true /\
  (is_int (min_level (with_level (seeded "Hall" (Short 5) (Some VObj) VNone VObj) 0)) = true \/
   (min_level (with_level (seeded "Hall" (Short 5) (Some VObj) VNone VObj) 0) =
      min_physical_level (with_level (seeded "Hall" (Short 5) (Some VObj) VNone VObj) 0) /\
    truthy (min_physical_level (with_level (seeded "Hall" (Short 5) (Some VObj) VNone VObj) 0)) = true)) /\
  short_address (with_level (seeded "Hall" (Short 5) (Some VObj) VNone VObj) 0) = Short 5 /\
  friendly_name (with_level (seeded "Hall" (Short 5) (Some VObj) VNone VObj) 0) = "Hall"%string /\
  device_name (with_level (seeded "Hall" (Short 5) (Some VObj) VNone VObj) 0) = slugify "Hall" /\
  associated_lamps (with_level (seeded "Hall" (Short 5) (Some VObj) VNone VObj) 0) = None.
Proof.
  assert (E : lamp_init "info" "Hall" (Short 5)
    (script_world [Some VObj; Some VNone; Some VObj; Some (VInt 0)]) =
    (Ok (with_level (seeded "Hall" (Short 5) (Some VObj) VNone VObj) 0),
     mkWorld {| answers := [] |} (init_queries (Short 5) ++ [DAPC (Short 5) 0])))
    by reflexivity.
  split; [exact E|]. exact (@lamp_init_types Script Script_driver _ _ _ _ _ _ E).
Defined.
