(* ===== verification/InitErrors.v ===== *)
(** * The errors of [Lamp.__init__] ([src/dali2mqtt/lamp.py], lines 29-59)

    The constructor raises in two ways: [KeyError] from the log-level
    lookup (line 44), before any command is sent, and [AttributeError]
    from [.value] on a missing reply to any query but the first, which is
    the only one inside [try]/[except] (lines 48-53, 56, 59). *)

From Stdlib Require Import ZArith List String Lia.
From S2P Require Import Prelude PyValue Address Bus Slug LampState LampCore LampPredict LampOps LampCtrl LampInit.
Import ListNotations.
Local Open Scope py_scope.

Section Errors.
Context {B : Type} `{Driver B}.

(** C13: only the physical-minimum query is protected: a missing reply to
    the minimum-level, maximum-level or actual-level query makes the
    constructor raise [AttributeError], where the spec (section 4.2) says
    construction degrades field by field and never raises for one failed
    read. *)
Theorem lamp_init_missing_reply log name a (w : world B) r1 b1 r2 b2 r3 b3 r4 b4 :
  In log ALL_SUPPORTED_LOG_LEVELS ->
  respond (QueryPhysicalMinimum a) (bus w) = (r1, b1) ->
  respond (QueryMinLevel a) b1 = (r2, b2) ->
  respond (QueryMaxLevel a) b2 = (r3, b3) ->
  respond (QueryActualLevel a) b3 = (r4, b4) ->
  r2 = None \/ r3 = None \/ r4 = None ->
  fst (lamp_init log name a w) = Raise AttributeError.
Proof.
  intros Hlog H1 H2 H3 H4 Hnone. unfold lamp_init, bind at 1.
  rewrite (log_level_ok _ _ Hlog). unfold bind, send, try_except. cbn [bus sent].
  rewrite H1. cbn [bus sent].
  destruct r1; cbn; rewrite H2; cbn; destruct r2 as [v2|]; cbn; try reflexivity;
    rewrite H3; cbn; destruct r3 as [v3|]; cbn; try reflexivity;
    rewrite H4; cbn; destruct r4 as [v4|]; cbn; try reflexivity;
    exfalso; intuition discriminate.
Qed.

(** C14: an unknown log level name raises [KeyError] before any command
    is sent. *)
Theorem lamp_init_bad_log_level log name a (w : world B) :
  ~ In log ALL_SUPPORTED_LOG_LEVELS ->
  lamp_init log name a w = (Raise KeyError, w).
Proof.
  intros Hlog. unfold lamp_init, bind at 1. now rewrite (log_level_bad _ _ Hlog).
Qed.
End Errors.

(** ** Witnesses: a lamp on short address 5 with a scripted bus *)

Lemma lamp_init_missing_reply_witness :
  fst (lamp_init "info" "Hall" (Short 5) (script_world [Some (VInt 1); Some (VInt 86)])) =
  Raise AttributeError.
Proof.
  apply (@lamp_init_missing_reply Script Script_driver "info" "Hall" (Short 5)
           (script_world [Some (VInt 1); Some (VInt 86)]) (Some (VInt 1))
           {| answers := [Some (VInt 86)] |} (Some (VInt 86)) {| answers := [] |}
           None {| answers := [] |} None {| answers := [] |} info_supported);
    try reflexivity. right; left; reflexivity.
Defined.

Lemma lamp_init_bad_log_level_witness :
  lamp_init "verbose" "Hall" (Short 5) (script_world []) = (Raise KeyError, script_world []).
Proof.
  apply lamp_init_bad_log_level. simpl. intuition discriminate.
Defined.
