(* ===== verification/Legacy.v ===== *)
(** * The legacy lamp of [src/lamp.py]

    The older [Lamp] takes its bounds and initial level as constructor
    arguments (ints, as the legacy main passes them) and its level setter
    raises [ValueError] for a non-zero level outside
    [[min_level, max_level]] instead of clamping it (lines 79-87).  Its
    constructor assigns the attributes, then the level through the setter,
    and only then sets the log level (lines 32-40).  [gen_ha_config] is
    the same in both versions and is modelled once, in [Discovery].

    The theorems: the setter raises exactly outside the bounds and sends
    nothing then; and the clamping setter of [src/dali2mqtt/lamp.py]
    refines it: wherever the legacy setter succeeds, the current one, on
    the same lamp, returns the same lamp and the same world. *)

From Stdlib Require Import ZArith List String Lia.
From S2P Require Import Prelude PyValue Address Bus Slug LampState LampCore LampPredict LampOps LampCtrl LampInit.
Import ListNotations.
Local Open Scope Z_scope.
Local Open Scope py_scope.
Local Open Scope bool_scope.

(** The attributes the legacy [__init__] assigns (lines 32-39); as in
    [LampState.Lamp], [self.driver] is the world's driver.  The legacy
    main passes ints, so the bounds are [Z]. *)
Record LegacyLamp := mkLegacy {
  l_short_address : Address;
  l_friendly_name : string;
  l_device_name : string;
  l_min_physical_level : Z;
  l_min_level : Z;
  l_max_level : Z;
  l_level : Z
}.

(** The [level] property's getter (lines 74-77). *)
Definition l_get_level (self : LegacyLamp) : Z := l_level self.

(** [self.__level = value] (line 82). *)
Definition l_with_level (self : LegacyLamp) (z : Z) : LegacyLamp :=
  {| l_short_address := l_short_address self; l_friendly_name := l_friendly_name self;
     l_device_name := l_device_name self; l_min_physical_level := l_min_physical_level self;
     l_min_level := l_min_level self; l_max_level := l_max_level self; l_level := z |}.

Section Legacy.
Context {B : Type} `{Driver B}.

(** The level setter (lines 79-87): [if not min_level <= value <= max_level
    and value != 0: raise ValueError]; else store and send DAPC. *)
Definition legacy_set_level (self : LegacyLamp) (value : Z) : PyM (world B) LegacyLamp :=
  if negb ((l_min_level self <=? value) && (value <=? l_max_level self)) && negb (value =? 0)
  then raise ValueError
  else
    let self' := l_with_level self value in
    send (DAPC (l_short_address self') (l_get_level self')) ;;; ret self'.

(** [Lamp.__init__] (lines 20-40). *)
Definition legacy_init (log_level : string) (friendly_name : string) (short_address : Address)
    (min_physical_level min_level level max_level : Z) : PyM (world B) LegacyLamp :=
  self <- legacy_set_level
            (mkLegacy short_address friendly_name (slugify friendly_name)
                      min_physical_level min_level max_level 0) level ;;
  set_log_level log_level ;;;
  ret self.
End Legacy.

(** The current lamp with the same attributes. *)
Definition to_lamp (l : LegacyLamp) : Lamp :=
  mkLamp (l_short_address l) (l_friendly_name l) (l_device_name l) None
         (VInt (l_min_physical_level l)) (VInt (l_min_level l)) (VInt (l_max_level l))
         (l_level l).

Definition in_range (l : LegacyLamp) (v : Z) : Prop :=
  v = 0 \/ l_min_level l <= v <= l_max_level l.

Definition in_range_dec (l : LegacyLamp) (v : Z) : {in_range l v} + {~ in_range l v}.
Proof.
  unfold in_range. destruct (Z.eq_dec v 0); [left; now left|].
  destruct (Z_le_dec (l_min_level l) v), (Z_le_dec v (l_max_level l));
    [left; right; lia | right; lia | right; lia | right; lia].
Defined.

Lemma to_lamp_with_level l z : to_lamp (l_with_level l z) = with_level (to_lamp l) z.
Proof. reflexivity. Qed.

Section Runs.
Context {B : Type} `{Driver B}.

Lemma legacy_set_level_accept l v (w : world B) :
  in_range l v ->
  exists w', legacy_set_level l v w = (Ok (l_with_level l v), w') /\
             sent w' = sent w ++ [DAPC (l_short_address l) v].
Proof.
  unfold in_range, legacy_set_level. intros Hr.
  replace (negb _ && negb _) with false by (zcase; simpl; lia || reflexivity).
  unfold bind, send, ret. destruct (respond _ (bus w)) as [r b']. eexists. split; reflexivity.
Qed.

Lemma legacy_set_level_reject l v (w : world B) :
  ~ in_range l v -> legacy_set_level l v w = (Raise ValueError, w).
Proof.
  unfold in_range, legacy_set_level. intros Hr.
  replace (negb _ && negb _) with true by (zcase; simpl; lia || reflexivity).
  reflexivity.
Qed.
End Runs.

Lemma setter_clamp_in_range l v :
  in_range l v ->
  setter_clamp (VInt (l_min_level l)) (VInt (l_max_level l)) (VInt v) = VInt v.
Proof. unfold in_range, setter_clamp, int_and_lt, int_and_gt. intros Hr. zcase; simpl; f_equal; lia. Qed.

(** ** Properties of the legacy lamp *)

Section Properties.
Context {B : Type} `{Driver B}.

(** C15: the clamping setter refines the legacy setter: whenever the
    legacy setter returns, the current setter on the same attributes
    returns the same lamp and leaves the bus in the same state with the
    same commands sent. *)
Theorem legacy_refined_by_clamp (l : LegacyLamp) v (w : world B) l' w' :
  legacy_set_level l v w = (Ok l', w') ->
  set_level (to_lamp l) (VInt v) w = (Ok (to_lamp l'), w').
Proof.
  destruct (in_range_dec l v) as [Hr|Hr].
  - unfold set_level. cbn [to_lamp min_level max_level].
    rewrite (setter_clamp_in_range l v Hr).
    unfold legacy_set_level.
    replace (negb _ && negb _) with false by (unfold in_range in Hr; zcase; simpl; lia || reflexivity).
    unfold bind, send, ret. cbn. destruct (respond _ (bus w)) as [r b'].
    intros E. injection E as <- <-. reflexivity.
  - rewrite (legacy_set_level_reject l v w Hr). discriminate.
Qed.
End Properties.

Section Policies.
Context {B : Type} `{Driver B}.

(** C16: the two policies differ exactly outside the bounds: there the
    legacy setter raises [ValueError] and sends nothing, while the current
    setter commits the clamped level, which is not the requested one, and
    sends it. *)
Theorem legacy_rejects_current_clamps (l : LegacyLamp) v (w : world B) :
  ~ in_range l v -> l_min_level l <= l_max_level l ->
  legacy_set_level l v w = (Raise ValueError, w) /\
  clamp_spec (l_min_level l) (l_max_level l) v <> v /\
  exists w', set_level (to_lamp l) (VInt v) w =
               (Ok (with_level (to_lamp l) (clamp_spec (l_min_level l) (l_max_level l) v)), w')
             /\ sent w' = sent w ++ [DAPC (l_short_address l)
                                          (clamp_spec (l_min_level l) (l_max_level l) v)].
Proof.
  intros Hr Hle. split; [now apply legacy_set_level_reject|]. split.
  - unfold in_range, clamp_spec in *. zcase; lia.
  - apply set_level_commit. now apply setter_clamp_spec.
Qed.

(** C17: the legacy constructor sends the DAPC of its initial level before
    it looks up the log level: with an in-range level and an unknown log
    level name it raises [KeyError] after the DAPC went out. *)
Theorem legacy_init_dapc_then_key_error log name a mpl mn lvl mx (w : world B) :
  ~ In log ALL_SUPPORTED_LOG_LEVELS -> (lvl = 0 \/ mn <= lvl <= mx) ->
  exists w', legacy_init log name a mpl mn lvl mx w = (Raise KeyError, w') /\
             sent w' = sent w ++ [DAPC a lvl].
Proof.
  intros Hlog Hr. unfold legacy_init.
  destruct (legacy_set_level_accept (mkLegacy a name (slugify name) mpl mn mx 0) lvl w Hr)
    as [w1 [E S]].
  exists w1. split; [|exact S].
  unfold bind at 1. rewrite E. unfold bind. now rewrite (log_level_bad _ _ Hlog).
Qed.
End Policies.

(** ** Witnesses *)

Definition hall_legacy : LegacyLamp :=
  mkLegacy (Short 7) "Hall" "hall" 1 86 254 150.

Lemma legacy_refined_by_clamp_witness :
  legacy_set_level hall_legacy 200 (script_world []) =
    (Ok (l_with_level hall_legacy 200), mkWorld {| answers := [] |} [DAPC (Short 7) 200]) /\
  set_level (to_lamp hall_legacy) (VInt 200) (script_world []) =
    (Ok (to_lamp (l_with_level hall_legacy 200)), mkWorld {| answers := [] |} [DAPC (Short 7) 200]).
Proof.
  split; [reflexivity|]. apply (@legacy_refined_by_clamp Script Script_driver). reflexivity.
Defined.

Lemma legacy_rejects_current_clamps_witness :
  ~ in_range hall_legacy 300 /\
  legacy_set_level hall_legacy 300 (script_world []) = (Raise ValueError, script_world []) /\
  clamp_spec 86 254 300 <> 300 /\
  exists w', set_level (to_lamp hall_legacy) (VInt 300) (script_world []) =
               (Ok (with_level (to_lamp hall_legacy) (clamp_spec 86 254 300)), w')
             /\ sent w' = [DAPC (Short 7) (clamp_spec 86 254 300)].
Proof.
  assert (Hr : ~ in_range hall_legacy 300) by (unfold in_range; simpl; lia).
  split; [exact Hr|].
  exact (legacy_rejects_current_clamps hall_legacy 300 (script_world []) Hr
           ltac:(simpl; lia)).
Defined.

Lemma legacy_init_dapc_then_key_error_witness :
  exists w', legacy_init "verbose" "Hall" (Short 7) 1 86 150 254 (script_world []) =
               (Raise KeyError, w') /\ sent w' = [DAPC (Short 7) 150].
Proof.
  apply (legacy_init_dapc_then_key_error "verbose" "Hall" (Short 7) 1 86 150 254 (script_world []));
    [simpl; intuition discriminate | right; lia].
Defined.
