(* ===== verification/Topics.v ===== *)
(** * MQTT topics: [str.format] on the templates of [consts.py]

    [gen_ha_config] ([src/dali2mqtt/lamp.py], lines 67-78) builds the
    lamp's topics as [TEMPLATE.format(mqtt_base_topic, device_name)].
    [py_format] is Python's [str.format] for templates whose replacement
    fields are all "{}" (automatic numbering, no format spec), with "{{"
    and "}}" escapes; too few arguments raise [IndexError], a lone brace
    [ValueError].  The templates are constants of [consts.py], which is
    not under src/: they are modelled from the repository's constants.

    The theorems: each lamp topic is [base/device/suffix]; for device names
    without "/" (every slug) the four lamp topics of all lamps sharing a
    base topic are pairwise distinct, and distinct from the bridge's
    availability topic. *)

From Stdlib Require Import Ascii String List Lia.
From S2P Require Import Prelude Slug.
Import ListNotations.
Local Open Scope string_scope.

(** [template.format( *args )]. *)
Fixpoint py_format (t : string) (args : list string) : outcome string :=
  match t with
  | EmptyString => Ok EmptyString
  | String "{"%char (String "}"%char rest) =>
      match args with
      | a :: args' =>
          match py_format rest args' with
          | Ok s => Ok (a ++ s)
          | Raise e => Raise e
          end
      | [] => Raise IndexError
      end
  | String "{"%char (String "{"%char rest) =>
      match py_format rest args with Ok s => Ok (String "{" s) | Raise e => Raise e end
  | String "}"%char (String "}"%char rest) =>
      match py_format rest args with Ok s => Ok (String "}" s) | Raise e => Raise e end
  | String "{"%char _ | String "}"%char _ => Raise ValueError
  | String c rest =>
      match py_format rest args with Ok s => Ok (String c s) | Raise e => Raise e end
  end.

(** ** The constants of [consts.py] *)

Definition MQTT_STATE_TOPIC := "{}/{}/light/status".
Definition MQTT_COMMAND_TOPIC := "{}/{}/light/switch".
Definition MQTT_BRIGHTNESS_STATE_TOPIC := "{}/{}/light/brightness/status".
Definition MQTT_BRIGHTNESS_COMMAND_TOPIC := "{}/{}/light/brightness/set".
Definition MQTT_DALI2MQTT_STATUS := "{}/status".
Definition MQTT_AVAILABLE := "online".
Definition MQTT_NOT_AVAILABLE := "offline".
Definition MQTT_PAYLOAD_OFF := "OFF".

(** The four per-lamp topics of the discovery document. *)
Inductive topic_kind := StateT | CommandT | BrightnessStateT | BrightnessCommandT.

Definition topic_template (k : topic_kind) : string :=
  match k with
  | StateT => MQTT_STATE_TOPIC
  | CommandT => MQTT_COMMAND_TOPIC
  | BrightnessStateT => MQTT_BRIGHTNESS_STATE_TOPIC
  | BrightnessCommandT => MQTT_BRIGHTNESS_COMMAND_TOPIC
  end.

Definition topic_suffix (k : topic_kind) : string :=
  match k with
  | StateT => "/light/status"
  | CommandT => "/light/switch"
  | BrightnessStateT => "/light/brightness/status"
  | BrightnessCommandT => "/light/brightness/set"
  end.

(** [TEMPLATE.format(mqtt_base_topic, device_name)]. *)
Definition topic (k : topic_kind) (base dev : string) : outcome string :=
  py_format (topic_template k) [base; dev].

(** The five [.format] calls of [gen_ha_config] on a base topic and a
    device name. *)
Lemma topic_shape_format base dev :
  py_format MQTT_STATE_TOPIC [base; dev] = Ok (base ++ "/" ++ dev ++ "/light/status") /\
  py_format MQTT_COMMAND_TOPIC [base; dev] = Ok (base ++ "/" ++ dev ++ "/light/switch") /\
  py_format MQTT_BRIGHTNESS_STATE_TOPIC [base; dev] =
    Ok (base ++ "/" ++ dev ++ "/light/brightness/status") /\
  py_format MQTT_BRIGHTNESS_COMMAND_TOPIC [base; dev] =
    Ok (base ++ "/" ++ dev ++ "/light/brightness/set") /\
  py_format MQTT_DALI2MQTT_STATUS [base] = Ok (base ++ "/status").
Proof. repeat split; reflexivity. Qed.

(** ** Strings without a "/" *)

Definition no_slash (s : string) : Prop := ~ In "/"%char (list_ascii_of_string s).

Lemma topic_shape k base dev : topic k base dev = Ok (base ++ "/" ++ dev ++ topic_suffix k).
Proof. destruct k; reflexivity. Qed.

(** Splitting at the first "/": a slash-free head followed by a suffix
    starting with "/" is determined by the concatenation. *)
Lemma app_no_slash_inv x y s t :
  no_slash x -> no_slash y ->
  (exists s', s = String "/" s') -> (exists t', t = String "/" t') ->
  x ++ s = y ++ t -> x = y /\ s = t.
Proof.
  unfold no_slash. revert y. induction x as [|c x IH]; intros [|c' y] Hx Hy [s' ->] [t' ->] E;
    simpl in *.
  - split; [reflexivity | exact E].
  - injection E as <- _. tauto.
  - injection E as -> _. tauto.
  - injection E as <- E. destruct (IH y) as [-> ->]; eauto; tauto.
Qed.

Lemma topic_suffix_slash k : exists s, topic_suffix k = String "/" s.
Proof. destruct k; simpl; eauto. Qed.

Lemma topic_suffix_inj k1 k2 : topic_suffix k1 = topic_suffix k2 -> k1 = k2.
Proof. destruct k1, k2; simpl; congruence. Qed.

Lemma slash_in_app x s : In "/"%char (list_ascii_of_string (x ++ String "/" s)).
Proof. induction x as [|c x IH]; simpl; auto. Qed.

Lemma slugify_no_slash' n : no_slash (slugify n).
Proof. apply slugify_no_slash. Qed.

(** ** Distinct topics *)

(** C18: for device names without "/", a topic determines its kind and
    its device name: two lamps under one base topic share no state,
    command or brightness topic unless their device names are equal. *)
Theorem topics_distinct k1 k2 base d1 d2 t :
  no_slash d1 -> no_slash d2 ->
  topic k1 base d1 = Ok t -> topic k2 base d2 = Ok t ->
  k1 = k2 /\ d1 = d2.
Proof.
  intros H1 H2. rewrite !topic_shape. intros E1 E2. rewrite <- E2 in E1.
  injection E1 as E. apply string_app_inv_l in E. injection E as E.
  destruct (app_no_slash_inv d1 d2 _ _ H1 H2 (topic_suffix_slash k1)
              (topic_suffix_slash k2) E) as [Hd Hs].
  split; [now apply topic_suffix_inj | exact Hd].
Qed.

(** C19: the bridge's availability topic [base/status] is none of the
    four topics of a lamp whose device name has no "/". *)
Theorem status_topic_distinct k base dev t :
  no_slash dev ->
  py_format MQTT_DALI2MQTT_STATUS [base] = Ok t -> topic k base dev <> Ok t.
Proof.
  intros Hd Hs. rewrite topic_shape. simpl in Hs. injection Hs as <-.
  intros E. injection E as E. apply string_app_inv_l in E. injection E as E.
  destruct (topic_suffix_slash k) as [s Hk]. rewrite Hk in E.
  pose proof (slash_in_app dev s) as Hin. rewrite E in Hin.
  simpl in Hin. intuition discriminate.
Qed.

(** Two friendly names with one slug: their state topics coincide, and
    the theorem concludes that their device names are equal. *)
Lemma topics_distinct_witness :
  topic StateT "dali2mqtt" (slugify "Kitchen Light") = Ok "dali2mqtt/kitchen-light/light/status" /\
  topic StateT "dali2mqtt" (slugify "kitchen-light") = Ok "dali2mqtt/kitchen-light/light/status" /\
  (StateT = StateT /\ slugify "Kitchen Light" = slugify "kitchen-light").
Proof.
  split; [reflexivity|]. split; [reflexivity|].
  exact (topics_distinct StateT StateT "dali2mqtt" (slugify "Kitchen Light") (slugify "kitchen-light")
           "dali2mqtt/kitchen-light/light/status" (slugify_no_slash' _) (slugify_no_slash' _)
           eq_refl eq_refl).
Defined.

Lemma status_topic_distinct_witness :
  topic BrightnessStateT "dali2mqtt" (slugify "Kitchen") <> Ok "dali2mqtt/status".
Proof.
  exact (status_topic_distinct BrightnessStateT "dali2mqtt" _ _ (slugify_no_slash' _) eq_refl).
Defined.
