(* ===== verification/Json.v ===== *)
(** * [json.dumps] and its inverse

    [gen_ha_config] returns [json.dumps(json_config)] for a dict of strings,
    an int (or whatever [max_level] holds) and a nested dict
    ([src/dali2mqtt/lamp.py], lines 63-89).  [json] is Python's standard
    library, not code of this repository; [dumps] follows its documented
    default behaviour: keys in insertion order, separators ", " and ": ",
    [ensure_ascii] (a character outside " ".."~" is written as an escape:
    the short forms for quote, backslash, \b \f \n \r \t, else \u00XX in
    lower-case hex), ints in decimal as [str(int)], [None] as null, and
    [TypeError] for any other object.  Strings are byte strings read as
    code points below 256.

    The parser of what [dumps] writes and the round trip are in
    [JsonParse]. *)

From Stdlib Require Import Ascii String List ZArith Lia DecimalString DecimalZ.
From S2P Require Import Prelude PyValue.
Import ListNotations.
Local Open Scope string_scope.
Local Open Scope bool_scope.

#[local] Set Warnings "-register-all".

(** The Python values a discovery dict holds. *)
Inductive pyobj :=
| PStr (s : string)
| PVal (v : PyVal)
| PDict (items : list (string * pyobj)).

(** JSON documents. *)
Inductive json :=
| JNull
| JInt (z : Z)
| JStr (s : string)
| JObj (fields : list (string * json)).

(** The JSON value of a Python value; [None] for an object [json] cannot
    serialise. *)
Fixpoint to_json (o : pyobj) : option json :=
  match o with
  | PStr s => Some (JStr s)
  | PVal (VInt z) => Some (JInt z)
  | PVal VNone => Some JNull
  | PVal VObj => None
  | PDict items =>
      let fix go (l : list (string * pyobj)) : option (list (string * json)) :=
        match l with
        | [] => Some []
        | (k, v) :: rest =>
            match to_json v, go rest with
            | Some j, Some js => Some ((k, j) :: js)
            | _, _ => None
            end
        end in
      match go items with Some fs => Some (JObj fs) | None => None end
  end.

(** ** Characters *)

Definition quote : ascii := ascii_of_nat 34.
Definition backslash : ascii := ascii_of_nat 92.

Definition hex_digit (n : nat) : ascii :=
  if Nat.ltb n 10 then ascii_of_nat (48 + n) else ascii_of_nat (87 + n).

(** One character of a string literal, as [py_encode_basestring_ascii]
    writes it. *)
Definition escape_char (c : ascii) : string :=
  let n := nat_of_ascii c in
  if Nat.eqb n 34 then String backslash (String quote EmptyString)
  else if Nat.eqb n 92 then String backslash (String backslash EmptyString)
  else if Nat.eqb n 8 then String backslash "b"
  else if Nat.eqb n 12 then String backslash "f"
  else if Nat.eqb n 10 then String backslash "n"
  else if Nat.eqb n 13 then String backslash "r"
  else if Nat.eqb n 9 then String backslash "t"
  else if Nat.leb 32 n && Nat.leb n 126 then String c EmptyString
  else String backslash ("u00" ++ String (hex_digit (n / 16))
                                       (String (hex_digit (n mod 16)) EmptyString)).

Fixpoint escape (s : string) : string :=
  match s with
  | EmptyString => EmptyString
  | String c rest => escape_char c ++ escape rest
  end.

Definition encode_string (s : string) : string :=
  String quote (escape s ++ String quote EmptyString).

(** [str(z)] for an int. *)
Definition encode_int (z : Z) : string :=
  NilZero.string_of_int (Z.to_int z).

Fixpoint encode (j : json) : string :=
  match j with
  | JNull => "null"
  | JInt z => encode_int z
  | JStr s => encode_string s
  | JObj fields =>
      let fix members (l : list (string * json)) : string :=
        match l with
        | [] => EmptyString
        | [(k, v)] => encode_string k ++ ": " ++ encode v
        | (k, v) :: rest => encode_string k ++ ": " ++ encode v ++ ", " ++ members rest
        end in
      "{" ++ members fields ++ "}"
  end.

(** [json.dumps(o)]. *)
Definition dumps (o : pyobj) : outcome string :=
  match to_json o with
  | Some j => Ok (encode j)
  | None => Raise TypeError
  end.
