(* ===== verification/JsonParse.v ===== *)
(** * Reading back what [json.dumps] writes

    [parse] is [json.loads] on the format [Json.dumps] emits: objects,
    strings with the escapes of [ensure_ascii], decimal ints and null.
    It runs on fuel; [parse] gives it [String.length s + 1], and the
    round-trip theorem [parse_dumps] proves this is enough, since
    [json_size j], the nesting and member count the parser consumes, is
    at most the length of [encode j].  So the document determines the
    dict it was made from: the hub reads back every field. *)

From Stdlib Require Import Ascii String List ZArith Lia DecimalString DecimalZ.
From S2P Require Import Prelude PyValue Json.
Import ListNotations.
Local Open Scope string_scope.
Local Open Scope bool_scope.

#[local] Set Warnings "-register-all".

(** ** Reading a document back ([json.loads] on what [dumps] writes) *)

Definition is_num_char (c : ascii) : bool :=
  let n := nat_of_ascii c in Nat.eqb n 45 || (Nat.leb 48 n && Nat.leb n 57).

(** The longest prefix of sign and digit characters, and the rest. *)
Fixpoint take_num (s : string) : string * string :=
  match s with
  | EmptyString => (EmptyString, EmptyString)
  | String c rest =>
      if is_num_char c then let (a, b) := take_num rest in (String c a, b)
      else (EmptyString, s)
  end.

Definition hex_val (c : ascii) : option nat :=
  let n := nat_of_ascii c in
  if Nat.leb 48 n && Nat.leb n 57 then Some (n - 48)
  else if Nat.leb 97 n && Nat.leb n 102 then Some (n - 87)
  else None.

Definition cons_res (c : ascii) (r : option (string * string)) : option (string * string) :=
  match r with Some (s, rest) => Some (String c s, rest) | None => None end.

(** The characters of a string literal after its opening quote, up to the
    closing quote; returns the decoded string and what follows. *)
Fixpoint parse_chars (s : string) : option (string * string) :=
  match s with
  | EmptyString => None
  | String c rest =>
      if Ascii.eqb c quote then Some (EmptyString, rest)
      else if Ascii.eqb c backslash then
        match rest with
        | String e rest' =>
            if Ascii.eqb e quote then cons_res quote (parse_chars rest')
            else if Ascii.eqb e backslash then cons_res backslash (parse_chars rest')
            else if Ascii.eqb e "b" then cons_res (ascii_of_nat 8) (parse_chars rest')
            else if Ascii.eqb e "f" then cons_res (ascii_of_nat 12) (parse_chars rest')
            else if Ascii.eqb e "n" then cons_res (ascii_of_nat 10) (parse_chars rest')
            else if Ascii.eqb e "r" then cons_res (ascii_of_nat 13) (parse_chars rest')
            else if Ascii.eqb e "t" then cons_res (ascii_of_nat 9) (parse_chars rest')
            else if Ascii.eqb e "u" then
              match rest' with
              | String "0" (String "0" (String h1 (String h2 rest''))) =>
                  match hex_val h1, hex_val h2 with
                  | Some a, Some b => cons_res (ascii_of_nat (16 * a + b)) (parse_chars rest'')
                  | _, _ => None
                  end
              | _ => None
              end
            else None
        | EmptyString => None
        end
      else cons_res c (parse_chars rest)
  end.

(** [fuel] bounds the nesting of objects and the number of members. *)
Fixpoint parse_value (fuel : nat) (s : string) : option (json * string) :=
  match fuel with
  | O => None
  | S f =>
      match s with
      | EmptyString => None
      | String "n" (String "u" (String "l" (String "l" rest))) => Some (JNull, rest)
      | String c rest =>
          if Ascii.eqb c quote then
            match parse_chars rest with
            | Some (str, r) => Some (JStr str, r)
            | None => None
            end
          else if Ascii.eqb c "{" then
            match rest with
            | String "}" r => Some (JObj [], r)
            | _ =>
                match parse_members f rest with
                | Some (fs, r) => Some (JObj fs, r)
                | None => None
                end
            end
          else
            let (tok, r) := take_num s in
            match NilZero.int_of_string tok with
            | Some d => Some (JInt (Z.of_int d), r)
            | None => None
            end
      end
  end
with parse_members (fuel : nat) (s : string) : option (list (string * json) * string) :=
  match fuel with
  | O => None
  | S f =>
      match s with
      | String c rest =>
          if Ascii.eqb c quote then
            match parse_chars rest with
            | Some (k, String ":" (String " " r)) =>
                match parse_value f r with
                | Some (v, String "," (String " " r')) =>
                    match parse_members f r' with
                    | Some (fs, r'') => Some ((k, v) :: fs, r'')
                    | None => None
                    end
                | Some (v, String "}" r') => Some ([(k, v)], r')
                | _ => None
                end
            | _ => None
            end
          else None
      | EmptyString => None
      end
  end.

(** Enough fuel to read a value back. *)
Fixpoint json_size (j : json) : nat :=
  match j with
  | JObj fields =>
      let fix msize (l : list (string * json)) : nat :=
        match l with
        | [] => 0
        | (_, v) :: rest => S (Nat.max (json_size v) (msize rest))
        end in
      S (msize fields)
  | _ => 1
  end.

Definition parse (s : string) : option json :=
  match parse_value (S (String.length s)) s with
  | Some (j, EmptyString) => Some j
  | _ => None
  end.

(** ** Round trip *)

(** Every character survives its escape: checked on the 256 values. *)
Lemma parse_escape_char c t :
  parse_chars (escape_char c ++ t) = cons_res c (parse_chars t).
Proof.
  destruct c as [[] [] [] [] [] [] [] []]; reflexivity.
Qed.

Lemma parse_escape s t : parse_chars (escape s ++ String quote t) = Some (s, t).
Proof.
  induction s as [|c s IH]; [reflexivity|].
  simpl. rewrite <- string_app_assoc, parse_escape_char, IH. reflexivity.
Qed.

(** Strings made of sign and digit characters, and strings that do not
    start with one. *)
Fixpoint all_num (s : string) : Prop :=
  match s with
  | EmptyString => True
  | String c rest => is_num_char c = true /\ all_num rest
  end.

Definition not_num_start (s : string) : Prop :=
  match s with
  | EmptyString => True
  | String c _ => is_num_char c = false
  end.

Lemma take_num_app a rest :
  all_num a -> not_num_start rest -> take_num (a ++ rest) = (a, rest).
Proof.
  induction a as [|c a IH]; simpl.
  - destruct rest as [|c rest]; simpl; [reflexivity|]. intros _ H. now rewrite H.
  - intros [Hc Ha] Hr. rewrite Hc, IH; auto.
Qed.

Lemma string_of_uint_num d : all_num (NilEmpty.string_of_uint d).
Proof. induction d; simpl; auto. Qed.

Lemma encode_int_num z : all_num (encode_int z).
Proof.
  unfold encode_int, NilZero.string_of_int, NilZero.string_of_uint.
  destruct (Z.to_int z) as [d|d]; [|split; [reflexivity|]];
    destruct d; simpl; auto using string_of_uint_num.
Qed.

Lemma to_int_not_nil z : Z.to_int z <> Decimal.Pos Decimal.Nil /\ Z.to_int z <> Decimal.Neg Decimal.Nil.
Proof.
  split; intros E; pose proof (DecimalZ.of_to z) as H; rewrite E in H;
    simpl in H; subst z; discriminate.
Qed.

Lemma int_of_encode_int z :
  option_map Z.of_int (NilZero.int_of_string (encode_int z)) = Some z.
Proof.
  destruct (to_int_not_nil z) as [H1 H2]. unfold encode_int.
  rewrite (NilZero.isi _ H1 H2). simpl. now rewrite DecimalZ.of_to.
Qed.

(** A value whose first character is a sign or digit is read as a number. *)
Lemma parse_value_num f c t :
  is_num_char c = true ->
  parse_value (S f) (String c t) =
    let (tok, r) := take_num (String c t) in
    match NilZero.int_of_string tok with
    | Some d => Some (JInt (Z.of_int d), r)
    | None => None
    end.
Proof. destruct c as [[] [] [] [] [] [] [] []]; try discriminate; reflexivity. Qed.

Lemma parse_encode_int f z rest :
  not_num_start rest -> parse_value (S f) (encode_int z ++ rest) = Some (JInt z, rest).
Proof.
  intros Hr. pose proof (encode_int_num z) as Hn. pose proof (int_of_encode_int z) as Hi.
  destruct (encode_int z) as [|c t] eqn:E; [discriminate|].
  destruct Hn as [Hc Ht]. simpl (String c t ++ rest). rewrite (parse_value_num f c _ Hc).
  change (String c (t ++ rest)) with (String c t ++ rest).
  rewrite (take_num_app (String c t) rest (conj Hc Ht) Hr).
  destruct (NilZero.int_of_string (String c t)); simpl in Hi; [|discriminate].
  injection Hi as ->. reflexivity.
Qed.

(** The members of an object as [encode] writes them, and their fuel. *)
Fixpoint encode_members (l : list (string * json)) : string :=
  match l with
  | [] => EmptyString
  | [(k, v)] => encode_string k ++ ": " ++ encode v
  | (k, v) :: rest => encode_string k ++ ": " ++ encode v ++ ", " ++ encode_members rest
  end.

Fixpoint members_size (l : list (string * json)) : nat :=
  match l with
  | [] => 0
  | (_, v) :: rest => S (Nat.max (json_size v) (members_size rest))
  end.

Lemma encode_obj fs : encode (JObj fs) = "{" ++ encode_members fs ++ "}".
Proof. reflexivity. Qed.

Lemma json_size_obj fs : json_size (JObj fs) = S (members_size fs).
Proof. reflexivity. Qed.

(** Induction on documents with a hypothesis for every member of an
    object. *)
Section JsonInd.
Variable P : json -> Prop.
Hypothesis Pnull : P JNull.
Hypothesis Pint : forall z, P (JInt z).
Hypothesis Pstr : forall s, P (JStr s).
Hypothesis Pobj : forall fs, Forall (fun kv => P (snd kv)) fs -> P (JObj fs).

Fixpoint json_ind' (j : json) : P j :=
  match j with
  | JNull => Pnull
  | JInt z => Pint z
  | JStr s => Pstr s
  | JObj fs =>
      Pobj fs ((fix go (l : list (string * json)) : Forall (fun kv => P (snd kv)) l :=
                  match l with
                  | [] => Forall_nil _
                  | kv :: rest => Forall_cons kv (json_ind' (snd kv)) (go rest)
                  end) fs)
  end.
End JsonInd.

Lemma parse_encode_string f s rest :
  parse_value (S f) (encode_string s ++ rest) = Some (JStr s, rest).
Proof.
  unfold encode_string. simpl. rewrite <- string_app_assoc. simpl.
  now rewrite parse_escape.
Qed.

(** One member: its key is read, then its value, then what follows. *)
Lemma parse_members_cons f k r :
  parse_members (S f) (encode_string k ++ ": " ++ r) =
    match parse_value f r with
    | Some (v, String "," (String " " r')) =>
        match parse_members f r' with
        | Some (fs, r'') => Some ((k, v) :: fs, r'')
        | None => None
        end
    | Some (v, String "}" r') => Some ([(k, v)], r')
    | _ => None
    end.
Proof.
  unfold encode_string. simpl. rewrite <- string_app_assoc. simpl.
  rewrite parse_escape. reflexivity.
Qed.

Lemma parse_members_encode fs :
  Forall (fun kv => forall f rest, json_size (snd kv) <= f -> not_num_start rest ->
            parse_value f (encode (snd kv) ++ rest) = Some (snd kv, rest)) fs ->
  forall f rest, fs <> [] -> members_size fs <= f ->
  parse_members f (encode_members fs ++ String "}" rest) = Some (fs, rest).
Proof.
  induction 1 as [|[k v] fs Hv Hfs IH]; intros f rest Hne Hf; [congruence|].
  destruct f as [|f]; [simpl in Hf; lia|]. simpl in Hf, Hv.
  destruct fs as [|kv fs].
  - change (encode_members [(k, v)]) with (encode_string k ++ ": " ++ encode v).
    rewrite <- !string_app_assoc. rewrite parse_members_cons.
    rewrite Hv by (simpl; lia || reflexivity). reflexivity.
  - change (encode_members ((k, v) :: kv :: fs))
      with (encode_string k ++ ": " ++ encode v ++ ", " ++ encode_members (kv :: fs)).
    rewrite <- !string_app_assoc. rewrite parse_members_cons.
    rewrite Hv by (simpl; lia || reflexivity). simpl.
    rewrite IH by (discriminate || simpl in *; lia). reflexivity.
Qed.

Lemma encode_members_head k v fs :
  exists t, encode_members ((k, v) :: fs) = String quote t.
Proof. destruct fs; eexists; reflexivity. Qed.

Lemma parse_encode j : forall f rest,
  json_size j <= f -> not_num_start rest -> parse_value f (encode j ++ rest) = Some (j, rest).
Proof.
  induction j as [| z | s | fs Hfs] using json_ind'; intros [|f] rest Hf Hr;
    try (simpl in Hf; lia).
  - reflexivity.
  - now apply parse_encode_int.
  - apply parse_encode_string.
  - rewrite encode_obj. rewrite json_size_obj in Hf.
    destruct fs as [|[k v] fs]; [reflexivity|].
    destruct (encode_members_head k v fs) as [t Et].
    pose proof (parse_members_encode _ Hfs f rest ltac:(discriminate) ltac:(lia)) as P.
    rewrite Et in P |- *. rewrite <- !string_app_assoc. simpl in P |- *.
    now rewrite P.
Qed.

Lemma encode_string_length s : 2 <= String.length (encode_string s).
Proof. unfold encode_string. simpl. rewrite string_length_app. simpl. lia. Qed.

Lemma encode_length_pos j : 1 <= String.length (encode j).
Proof.
  destruct j as [| z | s | fs]; cbn [encode].
  - simpl. lia.
  - pose proof (int_of_encode_int z) as H.
    destruct (encode_int z); [simpl in H; discriminate | simpl; lia].
  - pose proof (encode_string_length s). lia.
  - simpl. lia.
Qed.

Lemma json_size_le_length j : json_size j <= String.length (encode j).
Proof.
  induction j as [| z | s | fs Hfs] using json_ind'; try apply encode_length_pos.
  rewrite encode_obj, json_size_obj. simpl. rewrite string_length_app. simpl.
  enough (members_size fs <= String.length (encode_members fs)) by lia.
  induction Hfs as [|[k v] fs Hv Hfs IH]; [simpl; lia|].
  simpl in Hv. pose proof (encode_string_length k).
  destruct fs as [|kv fs]; cbn [members_size] in *;
    [change (encode_members [(k, v)]) with (encode_string k ++ ": " ++ encode v)
    | change (encode_members ((k, v) :: kv :: fs))
      with (encode_string k ++ ": " ++ encode v ++ ", " ++ encode_members (kv :: fs))];
    rewrite !string_length_app; cbn [String.length]; lia.
Qed.

(** ** The round trip *)

(** Reading back what [json.dumps] wrote gives the JSON value of the
    dict: every key and value is recovered. *)
Lemma parse_dumps o s : dumps o = Ok s -> parse s = to_json o.
Proof.
  unfold dumps, parse. destruct (to_json o) as [j|]; [|discriminate].
  intros E. injection E as <-.
  pose proof (json_size_le_length j) as Hs.
  pose proof (parse_encode j (S (String.length (encode j))) EmptyString ltac:(lia) I) as P.
  rewrite string_app_nil_r in P. now rewrite P.
Qed.

Lemma dumps_ok o j : to_json o = Some j -> dumps o = Ok (encode j).
Proof. unfold dumps. now intros ->. Qed.

Lemma dumps_error o : to_json o = None -> dumps o = Raise TypeError.
Proof. unfold dumps. now intros ->. Qed.

(** ** Reading fields of a document *)

Definition json_keys (j : json) : list string :=
  match j with JObj fs => map fst fs | _ => [] end.

(** The value of the first member named [k] (a JSON reader keeps the last
    one of duplicates; the documents here have none). *)
Definition json_lookup (k : string) (j : json) : option json :=
  match j with
  | JObj fs => option_map snd (find (fun kv => String.eqb (fst kv) k) fs)
  | _ => None
  end.
