(* ===== verification/Discovery.v ===== *)
(** * The Home Assistant discovery document: [Lamp.gen_ha_config]

    [gen_ha_config(mqtt_base_topic)] ([src/dali2mqtt/lamp.py], lines
    61-89, and the identical lines 42-72 of [src/lamp.py]) builds a dict
    of the lamp's name, ids, topics, brightness scale and device block and
    returns [json.dumps] of it.  The driver's class name comes from the
    [Driver] interface; [str(short_address)] (python-dali's formatting of
    an address object) and [__version__] (consts.py) are parameters of the
    section.

    The theorems: for a lamp with an int [max_level] the document is
    produced and reads back as exactly the expected fields, the five
    topics built from the device name among them (so two friendly names
    with the same slug give lamps with the same topics); and a lamp the
    constructor returned always has such a [max_level], so its document
    is always produced. *)

From Stdlib Require Import Ascii String List ZArith Lia.
From S2P Require Import Prelude PyValue Address Bus Slug LampState LampCore LampPredict LampOps LampCtrl LampInit Legacy Topics Json JsonParse.
Import ListNotations.
Local Open Scope string_scope.
Local Open Scope py_scope.

Section Discovery.
Context {B : Type} `{Driver B}.
Variable version : string.
Variable address_str : Address -> string.

(** The dict [json_config] (lines 63-88), once its topics are formatted. *)
Definition ha_config_dict (self : Lamp) (stat_t cmd_t bri_stat_t bri_cmd_t avty_t : string)
  : pyobj :=
  PDict [
    ("name", PStr (friendly_name self));
    ("obj_id", PStr ("dali_light_" ++ device_name self));
    ("uniq_id", PStr (driver_name ++ "_" ++ address_str (short_address self)));
    ("stat_t", PStr stat_t);
    ("cmd_t", PStr cmd_t);
    ("pl_off", PStr MQTT_PAYLOAD_OFF);
    ("bri_stat_t", PStr bri_stat_t);
    ("bri_cmd_t", PStr bri_cmd_t);
    ("bri_scl", PVal (max_level self));
    ("on_cmd_type", PStr "brightness");
    ("avty_t", PStr avty_t);
    ("pl_avail", PStr MQTT_AVAILABLE);
    ("pl_not_avail", PStr MQTT_NOT_AVAILABLE);
    ("device", PDict [
       ("ids", PStr "dali2mqtt");
       ("name", PStr "DALI Lights");
       ("sw", PStr ("dali2mqtt " ++ version));
       ("mdl", PStr driver_name);
       ("mf", PStr "dali2mqtt")])].

(** [gen_ha_config] (lines 61-89): the [.format] calls in the order the
    dict literal evaluates them, then [json.dumps]. *)
Definition gen_ha_config (self : Lamp) (mqtt_base_topic : string) : outcome string :=
  stat_t <-? py_format MQTT_STATE_TOPIC [mqtt_base_topic; device_name self] ;;
  cmd_t <-? py_format MQTT_COMMAND_TOPIC [mqtt_base_topic; device_name self] ;;
  bri_stat_t <-? py_format MQTT_BRIGHTNESS_STATE_TOPIC [mqtt_base_topic; device_name self] ;;
  bri_cmd_t <-? py_format MQTT_BRIGHTNESS_COMMAND_TOPIC [mqtt_base_topic; device_name self] ;;
  avty_t <-? py_format MQTT_DALI2MQTT_STATUS [mqtt_base_topic] ;;
  dumps (ha_config_dict self stat_t cmd_t bri_stat_t bri_cmd_t avty_t).
End Discovery.

(** [gen_ha_config] of [src/lamp.py] (lines 42-72) has the same body and
    reads the same attributes of the legacy lamp. *)
Definition legacy_gen_ha_config {B} `{Driver B} (version : string)
    (address_str : Address -> string) (self : LegacyLamp) (mqtt_base_topic : string)
  : outcome string :=
  gen_ha_config version address_str (to_lamp self) mqtt_base_topic.

(** The keys of the document, in order. *)
Definition ha_config_keys : list string :=
  ["name"; "obj_id"; "uniq_id"; "stat_t"; "cmd_t"; "pl_off"; "bri_stat_t"; "bri_cmd_t";
   "bri_scl"; "on_cmd_type"; "avty_t"; "pl_avail"; "pl_not_avail"; "device"].

Section Properties.
Context {B : Type} `{Driver B}.
Variable version : string.
Variable address_str : Address -> string.

(** The document of a lamp with an int [max_level], as the hub reads it. *)
Lemma gen_ha_config_ok (self : Lamp) base mx :
  max_level self = VInt mx ->
  exists s, gen_ha_config version address_str self base = Ok s /\
    parse s = to_json (ha_config_dict version address_str self
                 (base ++ "/" ++ device_name self ++ topic_suffix StateT)
                 (base ++ "/" ++ device_name self ++ topic_suffix CommandT)
                 (base ++ "/" ++ device_name self ++ topic_suffix BrightnessStateT)
                 (base ++ "/" ++ device_name self ++ topic_suffix BrightnessCommandT)
                 (base ++ "/status")).
Proof.
  intros Hmx. unfold gen_ha_config.
  destruct (topic_shape_format base (device_name self)) as (T1 & T2 & T3 & T4 & T5).
  rewrite T1, T2, T3, T4, T5. simpl obind.
  match goal with |- context [dumps ?o] =>
    assert (Hj : exists j, to_json o = Some j) by (simpl; rewrite Hmx; eauto) end.
  destruct Hj as [j Hj]. exists (encode j).
  split; [now apply dumps_ok | now apply parse_dumps, dumps_ok].
Qed.
End Properties.

Section Claims.
Context {B : Type} `{Driver B}.
Variable version : string.
Variable address_str : Address -> string.

(** C20: for a lamp with an int [max_level], [gen_ha_config] returns a
    document that reads back with exactly the keys of the source dict, in
    order, the brightness scale [max_level], the state, command and
    brightness topics [base/device_name/light/...] and the availability
    topic [base/status]. *)
Theorem gen_ha_config_fields (self : Lamp) base mx :
  max_level self = VInt mx ->
  exists s doc, gen_ha_config version address_str self base = Ok s /\ parse s = Some doc /\
    json_keys doc = ha_config_keys /\
    json_lookup "bri_scl" doc = Some (JInt mx) /\
    json_lookup "stat_t" doc = Some (JStr (base ++ "/" ++ device_name self ++ "/light/status")) /\
    json_lookup "cmd_t" doc = Some (JStr (base ++ "/" ++ device_name self ++ "/light/switch")) /\
    json_lookup "bri_stat_t" doc =
      Some (JStr (base ++ "/" ++ device_name self ++ "/light/brightness/status")) /\
    json_lookup "bri_cmd_t" doc =
      Some (JStr (base ++ "/" ++ device_name self ++ "/light/brightness/set")) /\
    json_lookup "avty_t" doc = Some (JStr (base ++ "/status")).
Proof.
  intros Hmx. destruct (gen_ha_config_ok version address_str self base mx Hmx) as [s [E P]].
  simpl in P. rewrite Hmx in P.
  exists s. eexists. split; [exact E|]. split; [exact P|].
  repeat split; reflexivity.
Qed.

(** C21: [gen_ha_config] never raises for a lamp the constructor
    returned, whatever the bus answered. *)
Theorem gen_ha_config_constructed log name a (w : world B) L w' base :
  lamp_init log name a w = (Ok L, w') ->
  exists s, gen_ha_config version address_str L base = Ok s.
Proof.
  intros Hr. pose proof (lamp_init_max_int log name a w L w' Hr) as Hi.
  destruct (max_level L) as [mx| |] eqn:E; try discriminate.
  destruct (gen_ha_config_ok version address_str L base mx E) as (s & Hs & _). eauto.
Qed.
End Claims.

(** ** Witnesses *)

(** An address formatting and version for the examples. *)
Definition example_address_str (a : Address) : string :=
  match a with
  | Short n => "short " ++ encode_int n
  | Group g => "group " ++ encode_int g
  | Broadcast => "broadcast"
  | BroadcastUnaddressed => "broadcast unaddressed"
  end.

Lemma gen_ha_config_fields_witness :
  exists s doc, gen_ha_config "0.0.1" example_address_str kitchen "dali2mqtt" = Ok s /\
    parse s = Some doc /\ json_keys doc = ha_config_keys /\
    json_lookup "bri_scl" doc = Some (JInt 254) /\
    json_lookup "stat_t" doc = Some (JStr "dali2mqtt/kitchen-ceiling-light/light/status") /\
    json_lookup "cmd_t" doc = Some (JStr "dali2mqtt/kitchen-ceiling-light/light/switch") /\
    json_lookup "bri_stat_t" doc =
      Some (JStr "dali2mqtt/kitchen-ceiling-light/light/brightness/status") /\
    json_lookup "bri_cmd_t" doc =
      Some (JStr "dali2mqtt/kitchen-ceiling-light/light/brightness/set") /\
    json_lookup "avty_t" doc = Some (JStr "dali2mqtt/status").
Proof.
  exact (@gen_ha_config_fields Script Script_driver "0.0.1" example_address_str
           kitchen "dali2mqtt" 254%Z eq_refl).
Defined.

Lemma gen_ha_config_constructed_witness :
  exists L w', lamp_init "info" "Hall" (Short 5)
                 (script_world [None; Some VObj; Some VObj; Some VObj]) = (Ok L, w') /\
    exists s, gen_ha_config "0.0.1" example_address_str L "dali2mqtt" = Ok s.
Proof.
  assert (Hr : lamp_init "info" "Hall" (Short 5)
                 (script_world [None; Some VObj; Some VObj; Some VObj]) =
               (Ok (with_level (seeded "Hall" (Short 5) None VObj VObj) 0%Z),
                mkWorld {| answers := [] |} (init_queries (Short 5)))) by reflexivity.
  eexists _, _. split; [exact Hr|].
  exact (@gen_ha_config_constructed Script Script_driver "0.0.1" example_address_str
           "info" "Hall" (Short 5) _ _ _ "dali2mqtt" Hr).
Defined.

