(* ===== verification/LampStr.v ===== *)
(** * The status line: [Lamp.__str__] of [src/dali2mqtt/lamp.py]

    Lines 144-151: the device name, the address (its [.address] attribute
    when the object has one, a short address; else the object itself,
    whose text is python-dali's), the cached level and
    the three bounds, formatted with [str()].  [str] of an int is its
    decimal form, of [None] "None"; the text of other objects (error
    values, group and broadcast addresses) is python-dali's and is a
    parameter.
    The theorem: the line determines the cached level and the int
    bounds it reports. *)

From Stdlib Require Import String List ZArith.
From S2P Require Import Prelude PyValue Address LampState LampCore LampPredict LampOps LampCtrl Json JsonParse.
Local Open Scope string_scope.

Section Str.
Variable obj_str : string.
Variable address_str : Address -> string.

(** [str(v)]. *)
Definition py_str (v : PyVal) : string :=
  match v with
  | VInt z => encode_int z
  | VNone => "None"
  | VObj => obj_str
  end.

(** [short_address.address if hasattr(short_address, "address") else
    short_address], formatted: python-dali's [Short] keeps its number in
    [.address]; a [Group] keeps it in [.group] and a broadcast has none,
    so for those the object itself is formatted, with python-dali's
    text. *)
Definition addr_str (a : Address) : string :=
  match a with
  | Short n => encode_int n
  | _ => address_str a
  end.

Definition lamp_str (self : Lamp) : string :=
  device_name self ++ " - address: " ++ addr_str (short_address self) ++
  ", actual brightness level: " ++ encode_int (level self) ++
  " (minimum: " ++ py_str (min_level self) ++ ", max: " ++ py_str (max_level self) ++
  ", physical minimum: " ++ py_str (min_physical_level self) ++ ")".
End Str.

Example lamp_str_kitchen :
  lamp_str "<object>" (fun _ => "broadcast") (with_level kitchen 86) =
  "kitchen-ceiling-light - address: 3, actual brightness level: 86 (minimum: 86, max: 254, physical minimum: 1)".
Proof. reflexivity. Qed.

(** A decimal followed by text that does not start with a digit or a
    sign determines both the number and the text. *)
Lemma encode_int_app_inj z1 z2 r1 r2 :
  not_num_start r1 -> not_num_start r2 ->
  (encode_int z1 ++ r1 = encode_int z2 ++ r2)%string -> z1 = z2 /\ r1 = r2.
Proof.
  intros N1 N2 E. apply (f_equal take_num) in E.
  rewrite !take_num_app in E by (apply encode_int_num || assumption).
  injection E as Ee Er. split; [|exact Er].
  pose proof (int_of_encode_int z1) as I1. rewrite Ee, int_of_encode_int in I1.
  now injection I1.
Qed.

(** C30: the status line reads back: two lamps that differ at most in
    their cached level and int bounds print the same line only if the
    level and both bounds agree, whatever python-dali's text for other
    objects. *)
Theorem lamp_str_reads_back obj_str address_str a fn dn al p mn1 mx1 z1 mn2 mx2 z2 :
  lamp_str obj_str address_str (mkLamp a fn dn al p (VInt mn1) (VInt mx1) z1) =
  lamp_str obj_str address_str (mkLamp a fn dn al p (VInt mn2) (VInt mx2) z2) ->
  z1 = z2 /\ mn1 = mn2 /\ mx1 = mx2.
Proof.
  unfold lamp_str. cbn [device_name short_address level min_level max_level
                        min_physical_level py_str].
  intros E. do 4 apply string_app_inv_l in E.
  apply encode_int_app_inj in E as [-> E]; [|exact eq_refl | exact eq_refl].
  apply string_app_inv_l in E.
  apply encode_int_app_inj in E as [-> E]; [|exact eq_refl | exact eq_refl].
  apply string_app_inv_l in E.
  apply encode_int_app_inj in E as [-> _]; [|exact eq_refl | exact eq_refl].
  auto.
Qed.

Lemma lamp_str_reads_back_witness :
  lamp_str "<object>" (fun _ => "broadcast") kitchen =
    lamp_str "<object>" (fun _ => "broadcast") kitchen /\
  (150 = 150 /\ 86 = 86 /\ 254 = 254)%Z.
Proof.
  split; [reflexivity|].
  exact (lamp_str_reads_back "<object>" (fun _ => "broadcast") (Short 3)
           "Kitchen Ceiling Light" "kitchen-ceiling-light" None (VInt 1)
           86 254 150 86 254 150 eq_refl).
Defined.
