(* ===== verification/Group.v ===== *)
(** * Groups: associated lamps as references into a store of lamp objects

    [add_associated_lamp] (lines 156-159 of [src/dali2mqtt/lamp.py])
    appends a lamp *object* to the group lamp's list: the member is shared,
    not copied, so a later change of the member (its level setter, [off],
    [actual_level]) is what the group sees when it fans out over its
    members.  Lamps live here in a store [gmap nat Lamp] indexed by object
    identity, and [associated_lamps] holds identities.  The theorems: the
    members are kept in call order with duplicates, whatever the address
    of the lamp they are added to; a fan-out read after an update of a
    member sees the update, after the members already there. *)

From Stdlib Require Import String.
From stdpp Require Import base list gmap.
From S2P Require Import Prelude PyValue Address Bus LampState LampCore LampPredict LampOps LampCtrl.

(** The heap of lamp objects. *)
Abbreviation store := (gmap nat Lamp).

(** [store[g].add_associated_lamp(store[m])]. *)
Definition add_member (st : store) (g m : nat) : store :=
  alter (fun G => add_associated_lamp G m) g st.

(** The member objects of group [g], in order ([for lamp in
    group.associated_lamps]); a missing group or list gives none. *)
Definition fanout (st : store) (g : nat) : list Lamp :=
  match st !! g with
  | Some G =>
      match associated_lamps G with
      | Some ids => omap (fun i => st !! i) ids
      | None => []
      end
  | None => []
  end.

Lemma add_associated_lamp_assoc G m :
  associated_lamps (add_associated_lamp G m) =
  Some (default [] (associated_lamps G) ++ [m]).
Proof. unfold add_associated_lamp. by destruct (associated_lamps G). Qed.

Lemma add_associated_lamp_level G m : level (add_associated_lamp G m) = level G.
Proof. done. Qed.

(** Adding the members [ms] one after the other. *)
Lemma fold_add_assoc G ms :
  associated_lamps (foldl add_associated_lamp G ms) =
  match ms with
  | [] => associated_lamps G
  | _ => Some (default [] (associated_lamps G) ++ ms)
  end.
Proof.
  revert G. induction ms as [|m ms IH]; intros G; [done|]. simpl.
  rewrite IH, add_associated_lamp_assoc. destruct ms; simpl; [done|].
  by rewrite <- app_assoc.
Qed.

Lemma lookup_add_member_ne (st : store) g m j :
  j <> g -> add_member st g m !! j = st !! j.
Proof. intros Hj. unfold add_member. by apply lookup_alter_ne. Qed.

Lemma lookup_add_member_eq (st : store) g m :
  add_member st g m !! g = (fun G => add_associated_lamp G m) <$> st !! g.
Proof. unfold add_member. apply lookup_alter_eq. Qed.

(** The references of a group other than [g] and [i] read the same in a
    store that differs from [st] only at [g] and [i]. *)
Lemma omap_other_refs (st st' : store) g i (ids : list nat) :
  g ∉ ids -> i ∉ ids -> (forall j, j <> g -> j <> i -> st' !! j = st !! j) ->
  omap (fun j => st' !! j) ids = omap (fun j => st !! j) ids.
Proof.
  intros Hg Hi Heq. apply list_omap_ext, Forall_Forall2_diag, Forall_forall.
  intros j Hj. apply Heq; intros ->; contradiction.
Qed.

(** ** Properties of groups *)

(** C22: adding members one after the other to a lamp without members
    records exactly those references, in call order and with duplicates,
    whatever the lamp's address: nothing checks that it is a group. *)
Theorem add_members_in_order (G : Lamp) (ms : list nat) :
  associated_lamps G = None -> ms <> [] ->
  associated_lamps (foldl add_associated_lamp G ms) = Some ms /\
  level (foldl add_associated_lamp G ms) = level G.
Proof.
  intros HG Hms. rewrite fold_add_assoc, HG. split.
  - destruct ms; [congruence | done].
  - clear HG Hms. revert G. induction ms as [|m ms IH]; intros G; [done|]. simpl.
    by rewrite IH.
Qed.

(** C23: a member is shared, not copied: after [add_associated_lamp]
    records lamp [i] in group [g], a later update of lamp [i] (here its new
    state [M']) is what the group's fan-out reads, after the members it
    already had. *)
Theorem fanout_after_add_and_update (st : store) g G i M' :
  st !! g = Some G -> i <> g -> is_Some (st !! i) ->
  (forall ids, associated_lamps G = Some ids -> (i ∉ ids) /\ (g ∉ ids)) ->
  fanout (<[i:=M']> (add_member st g i)) g = fanout st g ++ [M'].
Proof.
  intros HG Hig _ Hids. unfold fanout.
  rewrite lookup_insert_ne by congruence. rewrite lookup_add_member_eq, HG.
  cbn -[add_associated_lamp omap].
  rewrite add_associated_lamp_assoc, omap_app. cbv beta iota.
  assert (Hsing : omap (fun j => <[i:=M']> (add_member st g i) !! j) [i] = [M']).
  { simpl. by rewrite lookup_insert_eq. }
  rewrite Hsing.
  destruct (associated_lamps G) as [ids|] eqn:E; [|done].
  cbn [default]. destruct (Hids ids eq_refl) as [Hi Hg]. f_equal.
  apply (omap_other_refs _ _ g i); [done | done |].
  intros j Hjg Hji. rewrite lookup_insert_ne by congruence.
  by apply lookup_add_member_ne.
Qed.

(** ** Witnesses: a group lamp 0 and the kitchen lamp 7 in a store *)

Definition living_group : Lamp :=
  mkLamp (Group 1) "Living Room"%string "living-room"%string None (VInt 1) (VInt 86) (VInt 254) 0.

Definition house : store := {[0 := living_group; 7 := kitchen; 9 := kitchen]}.

(** Scenario D of the spec: two members, in call order. *)
Lemma add_members_in_order_witness :
  associated_lamps (foldl add_associated_lamp living_group [7; 9]) = Some [7; 9] /\
  level (foldl add_associated_lamp living_group [7; 9]) = level living_group.
Proof. apply add_members_in_order; [reflexivity | discriminate]. Defined.

Lemma fanout_after_add_and_update_witness :
  fanout (<[7:=with_level kitchen 86]> (add_member house 0 7)) 0 =
  fanout house 0 ++ [with_level kitchen 86].
Proof.
  apply (fanout_after_add_and_update house 0 living_group 7); [reflexivity | lia | by eexists |].
  intros ids E. discriminate.
Defined.

