(* ===== verification/Ballast.v ===== *)
(** * The cached level against the ballast's own level

    The lamp caches the ballast's arc power level in [__level] and never
    re-reads it except in [actual_level].  [BallastBus] states what a bus
    with the lamp's ballast promises (the interface between the
    controller and the bus): a query of the actual level answers the arc
    level, a DAPC within the ballast's range sets it, Off sets 0, the
    queries of the bounds answer the ballast's range without changing
    it, and the ballast's address and range do not change.  Against this interface:
    the cache stays equal to the ballast's level over any sequence of
    int requests, [off] and [actual_level] when the lamp's bounds lie in
    the ballast's range, and the constructor establishes it on a
    ballast whose range lies in 1..254.  A non-int request breaks it:
    the setter then stores 0 and sends nothing
    ([LampPredict.set_level_non_int]).  [Gear] is a model of one DALI control gear
    (IEC 62386-102 arc power commands) that satisfies the interface. *)

From Stdlib Require Import ZArith List String Lia.
From S2P Require Import Prelude PyValue Address Bus LampState LampCore LampPredict LampOps LampCtrl LampInit.
Import ListNotations.
Local Open Scope Z_scope.

Class BallastBus (B : Type) `{Driver B} := {
  gear : B -> Address;
  arc_level : B -> Z;
  gear_min : B -> Z;
  gear_max : B -> Z;
  query_actual_law : forall b,
    respond (QueryActualLevel (gear b)) b = (Some (VInt (arc_level b)), b);
  dapc_law : forall b v, v = 0 \/ (gear_min b <= v <= gear_max b /\ 1 <= v <= 254) ->
    let b' := snd (respond (DAPC (gear b) v) b) in
    gear b' = gear b /\ arc_level b' = v /\ gear_min b' = gear_min b /\ gear_max b' = gear_max b;
  off_law : forall b,
    let b' := snd (respond (Off (gear b)) b) in
    gear b' = gear b /\ arc_level b' = 0 /\ gear_min b' = gear_min b /\ gear_max b' = gear_max b;
  query_phys_law : forall b, snd (respond (QueryPhysicalMinimum (gear b)) b) = b;
  query_min_law : forall b, respond (QueryMinLevel (gear b)) b = (Some (VInt (gear_min b)), b);
  query_max_law : forall b, respond (QueryMaxLevel (gear b)) b = (Some (VInt (gear_max b)), b)
}.

Section Coherence.
Context {B : Type} `{BallastBus B}.

(** The lamp addresses the ballast, its cached level is the ballast's, and
    its bounds are ordered ints inside the ballast's range and inside the
    DALI levels 1..254. *)
Definition coherent (L : Lamp) (w : world B) : Prop :=
  short_address L = gear (bus w) /\ level L = arc_level (bus w) /\
  exists mn mx, bounds_ok L mn mx /\ gear_min (bus w) <= mn /\ mx <= gear_max (bus w) /\
                1 <= mn /\ mx <= 254.

(** The operations whose effect on the ballast the cache follows: int
    requests, [off] and [actual_level]. *)
Inductive sync_step : Lamp -> world B -> Lamp -> world B -> Prop :=
| sync_set L v w L' w' : set_level L (VInt v) w = (Ok L', w') -> sync_step L w L' w'
| sync_off L w L' w' : off L w = (Ok L', w') -> sync_step L w L' w'
| sync_refresh L w L' w' : actual_level L w = (Ok L', w') -> sync_step L w L' w'.

Inductive sync_reach (L : Lamp) (w : world B) : Lamp -> world B -> Prop :=
| sync_refl : sync_reach L w L w
| sync_trans L1 w1 L2 w2 : sync_reach L w L1 w1 -> sync_step L1 w1 L2 w2 -> sync_reach L w L2 w2.

Lemma send_bus c (w : world B) r w' :
  send c w = (Ok r, w') -> bus w' = snd (respond c (bus w)).
Proof.
  unfold send. destruct (respond c (bus w)) as [r0 b']. intros E. injection E as _ <-.
  reflexivity.
Qed.

(** An int request makes the lamp coherent with the ballast when the lamp
    addresses it with bounds inside its range, whatever the cached level
    was before. *)
Lemma set_level_coherent L v (w : world B) L' w' :
  short_address L = gear (bus w) ->
  (exists mn mx, bounds_ok L mn mx /\ gear_min (bus w) <= mn /\ mx <= gear_max (bus w) /\
                 1 <= mn /\ mx <= 254) ->
  set_level L (VInt v) w = (Ok L', w') -> coherent L' w'.
Proof.
  intros Ha (mn & mx & Hb & Hlo & Hhi & H1 & H254) Hr. pose proof Hb as (E1 & E2 & Hle).
  assert (Hc : setter_clamp (min_level L) (max_level L) (VInt v) = VInt (clamp_spec mn mx v))
    by (rewrite E1, E2; now apply setter_clamp_spec).
  unfold set_level in Hr. rewrite Hc in Hr. unfold bind at 1 in Hr.
  destruct (send _ w) as [[r|e] w1] eqn:Es; [|discriminate].
  unfold ret in Hr. injection Hr as <- <-.
  cbn [get_level with_level short_address level] in Es. rewrite Ha in Es.
  pose proof (send_bus _ _ _ _ Es) as Hbus.
  destruct (dapc_law (bus w) (clamp_spec mn mx v)) as (G & A & Mn & Mx).
  { destruct (clamp_spec_range mn mx v Hle); [left | right]; lia. }
  cbv zeta in G, A, Mn, Mx. rewrite <- Hbus in G, A, Mn, Mx.
  unfold coherent. cbn [with_level short_address level min_level max_level].
  rewrite G, A, Mn, Mx. split; [exact Ha|]. split; [reflexivity|]. exists mn, mx. auto 6.
Qed.

Lemma off_coherent L (w : world B) L' w' :
  coherent L w -> off L w = (Ok L', w') -> coherent L' w'.
Proof.
  intros (Ha & _ & Hrest) Hr. unfold off, bind at 1 in Hr.
  destruct (send _ w) as [[r|e] w1] eqn:Es; [|discriminate].
  unfold ret in Hr. injection Hr as <- <-. rewrite Ha in Es.
  pose proof (send_bus _ _ _ _ Es) as Hbus.
  destruct (off_law (bus w)) as (G & A & Mn & Mx).
  cbv zeta in G, A, Mn, Mx. rewrite <- Hbus in G, A, Mn, Mx.
  unfold coherent. cbn [with_level short_address level min_level max_level].
  rewrite G, A, Mn, Mx. split; [exact Ha | split; [reflexivity | exact Hrest]].
Qed.

Lemma refresh_coherent L (w : world B) L' w' :
  coherent L w -> actual_level L w = (Ok L', w') -> coherent L' w'.
Proof.
  intros (Ha & _ & Hrest) Hr. unfold actual_level, bind at 1 in Hr.
  unfold send in Hr. rewrite Ha, query_actual_law in Hr. cbn in Hr.
  injection Hr as <- <-. unfold coherent. cbn [bus with_level short_address level min_level max_level].
  split; [exact Ha | split; [reflexivity | exact Hrest]].
Qed.
End Coherence.

(** ** Properties *)

Section Claims.
Context {B : Type} `{BallastBus B}.

(** C24: from a coherent lamp, any sequence of int requests, [off] and
    [actual_level] keeps the cached level equal to the ballast's. *)
Theorem sync_reach_coherent (L : Lamp) (w : world B) L' w' :
  coherent L w -> sync_reach L w L' w' -> coherent L' w'.
Proof.
  intros Hc Hr. induction Hr as [|L1 w1 L2 w2 _ IH Hs]; [exact Hc|].
  destruct Hs as [? v ? ? ? Hs | ? ? ? ? Hs | ? ? ? ? Hs].
  - destruct IH as (Ha & _ & Hrange). eapply set_level_coherent; eauto.
  - eapply off_coherent; eauto.
  - eapply refresh_coherent; eauto.
Qed.

(** C29: construction on a ballast whose range lies in 1..254 succeeds and
    starts coherent: the lamp takes the ballast's minimum and maximum as
    its bounds, and the DAPC the constructor sends with the clamped
    actual level sets the ballast to exactly the level the lamp caches.
    Together with C24 the cache then follows the ballast over every
    serialised run of int requests, [off] and [actual_level]. *)
Theorem lamp_init_coherent log name (w : world B) :
  In log ALL_SUPPORTED_LOG_LEVELS ->
  1 <= gear_min (bus w) -> gear_min (bus w) <= gear_max (bus w) -> gear_max (bus w) <= 254 ->
  exists L w', lamp_init log name (gear (bus w)) w = (Ok L, w') /\ coherent L w' /\
    level L = clamp_spec (gear_min (bus w)) (gear_max (bus w)) (arc_level (bus w)).
Proof.
  intros Hlog H1 Hle H254.
  destruct (respond (QueryPhysicalMinimum (gear (bus w))) (bus w)) as [r1 b1] eqn:Hp.
  assert (Hb1 : b1 = bus w) by (pose proof (query_phys_law (bus w)) as E; rewrite Hp in E; exact E).
  subst b1.
  rewrite (lamp_init_run log name (gear (bus w)) w r1 (bus w) _ (bus w) _ (bus w) _ (bus w)
             Hlog Hp (query_min_law _) (query_max_law _) (query_actual_law _)).
  set (S := seeded name (gear (bus w)) r1 (VInt (gear_min (bus w))) (VInt (gear_max (bus w)))).
  set (w0 := mkWorld (bus w) (sent w ++ init_queries (gear (bus w)))).
  assert (Hb : bounds_ok S (gear_min (bus w)) (gear_max (bus w))) by (repeat split; assumption).
  assert (Hc : setter_clamp (min_level S) (max_level S) (VInt (arc_level (bus w)))
               = VInt (clamp_spec (gear_min (bus w)) (gear_max (bus w)) (arc_level (bus w))))
    by (destruct Hb as (E1 & E2 & _); rewrite E1, E2; now apply setter_clamp_spec).
  destruct (set_level_commit S _ _ w0 Hc) as (w' & E & _).
  exists (with_level S (clamp_spec (gear_min (bus w)) (gear_max (bus w)) (arc_level (bus w)))), w'.
  split; [exact E|]. split; [|reflexivity].
  refine (set_level_coherent S _ w0 _ _ eq_refl _ E).
  exists (gear_min (bus w)), (gear_max (bus w)). cbn [bus w0]. repeat split; auto; lia.
Qed.
End Claims.

(** ** A DALI control gear *)

(** One ballast at a short address: its physical minimum, its minimum and
    maximum level and its arc power level. *)
Record Gear := mkGear {
  g_addr : Z; g_phys_min : Z; g_min : Z; g_max : Z; g_level : Z
}.

Definition set_g_level (g : Gear) (z : Z) : Gear :=
  mkGear (g_addr g) (g_phys_min g) (g_min g) (g_max g) z.

(** The arc power a DAPC level gives: 255 is the mask (no change), 0 is
    off, anything else is brought into [[min, max]] by the gear. *)
Definition arc_power (g : Gear) (v : Z) : Z :=
  if v =? 255 then g_level g
  else if v =? 0 then 0
  else Z.max (g_min g) (Z.min v (g_max g)).

(** Whether a command's address selects this gear. *)
Definition selects (g : Gear) (a : Address) : bool :=
  match a with
  | Short n => n =? g_addr g
  | Broadcast => true
  | _ => false
  end.

(** The gear's answer; a query it does not answer gets a response object
    whose value is [None]. *)
Definition gear_respond (c : Cmd) (g : Gear) : reply * Gear :=
  let answer a z := if selects g a then (Some (VInt z), g) else (Some VNone, g) in
  match c with
  | QueryPhysicalMinimum a => answer a (g_phys_min g)
  | QueryMinLevel a => answer a (g_min g)
  | QueryMaxLevel a => answer a (g_max g)
  | QueryActualLevel a => answer a (g_level g)
  | DAPC a v => if selects g a then (None, set_g_level g (arc_power g v)) else (None, g)
  | Off a => if selects g a then (None, set_g_level g 0) else (None, g)
  end.

#[export] Instance Gear_driver : Driver Gear := {
  respond := gear_respond;
  driver_name := "DaliGear"%string
}.

#[export] Program Instance Gear_bus : BallastBus Gear := {
  gear g := Short (g_addr g);
  arc_level := g_level;
  gear_min := g_min;
  gear_max := g_max
}.
Next Obligation. simpl. now rewrite Z.eqb_refl. Qed.
Next Obligation.
  simpl. rewrite Z.eqb_refl. simpl. repeat split.
  unfold arc_power. zcase; lia.
Qed.
Next Obligation. simpl. rewrite Z.eqb_refl. simpl. repeat split. Qed.
Next Obligation. simpl. now rewrite Z.eqb_refl. Qed.
Next Obligation. simpl. now rewrite Z.eqb_refl. Qed.
Next Obligation. simpl. now rewrite Z.eqb_refl. Qed.

(** ** Witnesses: the kitchen lamp on its gear *)

Definition kitchen_gear : Gear := mkGear 3 1 86 254 150.

Lemma kitchen_coherent : coherent kitchen (mkWorld kitchen_gear []).
Proof.
  split; [reflexivity|]. split; [reflexivity|].
  exists 86, 254. split; [exact kitchen_bounds | simpl; lia].
Qed.

(** A request of 50, a refresh and an off. *)
Lemma sync_reach_coherent_witness :
  sync_reach kitchen (mkWorld kitchen_gear []) (with_level kitchen 0)
    (mkWorld (mkGear 3 1 86 254 0)
       [DAPC (Short 3) 86; QueryActualLevel (Short 3); Off (Short 3)]) /\
  coherent (with_level kitchen 0)
    (mkWorld (mkGear 3 1 86 254 0)
       [DAPC (Short 3) 86; QueryActualLevel (Short 3); Off (Short 3)]).
Proof.
  assert (Hr : sync_reach kitchen (mkWorld kitchen_gear []) (with_level kitchen 0)
                 (mkWorld (mkGear 3 1 86 254 0)
                    [DAPC (Short 3) 86; QueryActualLevel (Short 3); Off (Short 3)])).
  { apply (sync_trans _ _ (with_level kitchen 86)
             (mkWorld (mkGear 3 1 86 254 86) [DAPC (Short 3) 86; QueryActualLevel (Short 3)])).
    - apply (sync_trans _ _ (with_level kitchen 86)
               (mkWorld (mkGear 3 1 86 254 86) [DAPC (Short 3) 86])).
      + apply (sync_trans _ _ kitchen (mkWorld kitchen_gear [])); [apply sync_refl|].
        apply (sync_set _ 50). reflexivity.
      + apply sync_refresh. reflexivity.
    - apply sync_off. reflexivity. }
  split; [exact Hr|]. exact (sync_reach_coherent _ _ _ _ kitchen_coherent Hr).
Defined.

(** A gear left at level 20, below its minimum of 86: construction brings
    it to 86. *)
Definition dim_gear : Gear := mkGear 3 1 86 254 20.

Lemma lamp_init_coherent_witness :
  In "info"%string ALL_SUPPORTED_LOG_LEVELS /\ 1 <= 86 /\ 86 <= 254 /\ 254 <= 254 /\
  exists L w', lamp_init "info" "Kitchen" (Short 3) (mkWorld dim_gear []) = (Ok L, w') /\
    coherent L w' /\ level L = clamp_spec 86 254 20.
Proof.
  split; [exact info_supported|]. split; [lia|]. split; [lia|]. split; [lia|].
  exact (@lamp_init_coherent Gear Gear_driver Gear_bus "info" "Kitchen" (mkWorld dim_gear [])
           info_supported ltac:(simpl; lia) ltac:(simpl; lia) ltac:(simpl; lia)).
Defined.
