(* ===== verification/Serial.v ===== *)
(** * Serialising the writers of one lamp (spec, section 5)

    The bridge that receives MQTT commands is not under src/: it is
    modelled from the spec.  Its brightness handler is the guarded write
    of section 4.3, [if lamp.level_change_needed(v): lamp.level = v], a
    read of the cached level followed by a write of it.  Section 5 asks
    the bridge to serialise every mutating operation on a lamp (the
    handler, [off], [actual_level]) because the guarded write is not
    atomic.

    Here a writer is a thread of micro-steps on one shared lamp object
    and one bus: the handler is two micro-steps, the check (which keeps
    its decision in a thread-local flag) and the commit; [off] and
    [actual_level] are one each.  [run_sched] runs two threads along a
    schedule.  The theorems: serial runs of handlers never send a
    redundant DAPC; and for every lamp and every non-zero request that
    needs a change, two handlers interleaved check-check-commit-commit
    send the same DAPC twice where the serial run sends it once. *)

From Stdlib Require Import ZArith List String Lia.
From S2P Require Import Prelude PyValue Address Bus LampState LampCore LampPredict LampOps LampCtrl.
Import ListNotations.
Local Open Scope Z_scope.
Local Open Scope py_scope.

(** The mutating operations the bridge performs on a lamp. *)
Inductive op := Guarded (v : PyVal) | OffOp | RefreshOp.

(** Their atomic parts: the guarded write is a check and a commit. *)
Inductive micro := MCheck (v : PyVal) | MCommit (v : PyVal) | MOff | MRefresh.

Definition micros_of (o : op) : list micro :=
  match o with
  | Guarded v => [MCheck v; MCommit v]
  | OffOp => [MOff]
  | RefreshOp => [MRefresh]
  end.

(** The state of two writers sharing one lamp: the lamp object, and for
    each thread the micro-steps it has left and its flag (the decision
    of its last check). *)
Record sys := mkSys {
  lamp : Lamp;
  code1 : list micro; flag1 : bool;
  code2 : list micro; flag2 : bool
}.

Section Handlers.
Context {B : Type} `{Driver B}.

(** The bridge's brightness handler. *)
Definition guarded_set (self : Lamp) (v : PyVal) : PyM (world B) Lamp :=
  if level_change_needed self v then set_level self v else ret self.

Definition run_op (o : op) (self : Lamp) : PyM (world B) Lamp :=
  match o with
  | Guarded v => guarded_set self v
  | OffOp => off self
  | RefreshOp => actual_level self
  end.

(** A serial run: each operation completes before the next starts. *)
Fixpoint run_ops (os : list op) (self : Lamp) : PyM (world B) Lamp :=
  match os with
  | [] => ret self
  | o :: rest => self' <- run_op o self ;; run_ops rest self'
  end.

(** One micro-step of a thread with flag [flag] on the shared lamp. *)
Definition micro_step (m : micro) (flag : bool) (self : Lamp)
  : PyM (world B) (Lamp * bool) :=
  match m with
  | MCheck v => ret (self, level_change_needed self v)
  | MCommit v =>
      if flag then (self' <- set_level self v ;; ret (self', flag))
      else ret (self, flag)
  | MOff => self' <- off self ;; ret (self', flag)
  | MRefresh => self' <- actual_level self ;; ret (self', flag)
  end.

(** A schedule: [true] runs the next micro-step of thread 1, [false] of
    thread 2; a thread with nothing left is skipped. *)
Fixpoint run_sched (sched : list bool) (s : sys) : PyM (world B) sys :=
  match sched with
  | [] => ret s
  | true :: rest =>
      match code1 s with
      | m :: c1 =>
          p <- micro_step m (flag1 s) (lamp s) ;;
          run_sched rest (mkSys (fst p) c1 (snd p) (code2 s) (flag2 s))
      | [] => run_sched rest s
      end
  | false :: rest =>
      match code2 s with
      | m :: c2 =>
          p <- micro_step m (flag2 s) (lamp s) ;;
          run_sched rest (mkSys (fst p) (code1 s) (flag1 s) c2 (snd p))
      | [] => run_sched rest s
      end
  end.
End Handlers.

(** A DAPC is redundant when it repeats the level the lamp already has,
    off (0) apart, which [level_change_needed] always lets through. *)
Fixpoint no_redundant (l0 : Z) (cmds : list Cmd) : bool :=
  match cmds with
  | [] => true
  | DAPC _ c :: rest => ((c =? 0) || negb (c =? l0)) && no_redundant c rest
  | _ :: rest => no_redundant l0 rest
  end.

(** ** Runs of the handler *)

Section Runs.
Context {B : Type} `{Driver B}.

(** The handler either does nothing, or commits a level [c] that is off or
    differs from the cached one, with one DAPC carrying it. *)
Lemma guarded_set_run self v (w : world B) self' w' :
  guarded_set self v w = (Ok self', w') ->
  (self' = self /\ w' = w) \/
  exists c, (c = 0 \/ c <> level self) /\ self' = with_level self c /\
            sent w' = sent w ++ [DAPC (short_address self) c].
Proof.
  unfold guarded_set. destruct (level_change_needed self v) eqn:En.
  2: { intros Hr. injection Hr as <- <-. now left. }
  destruct v as [v| |]; try discriminate.
  destruct (setter_clamp_int (min_level self) (max_level self) v) as [c Hc].
  destruct (set_level_commit self _ _ w Hc) as (w1 & E & S). rewrite E.
  intros Hr. injection Hr as <- <-. right. exists c. split; [|auto].
  destruct (Z.eq_dec v 0) as [->|Hv].
  - left. simpl in Hc. congruence.
  - right. rewrite level_change_needed_clamp, Hc in En by exact Hv.
    simpl in En. intros ->. now rewrite Z.eqb_refl in En.
Qed.

(** A scheduled micro-step of thread 1 is the micro-step, then the rest
    of the schedule. *)
Lemma run_sched_true sched L m c1 f1 c2 f2 (w : world B) :
  run_sched (true :: sched) (mkSys L (m :: c1) f1 c2 f2) w =
  bind (micro_step m f1 L)
       (fun p => run_sched sched (mkSys (fst p) c1 (snd p) c2 f2)) w.
Proof. reflexivity. Qed.

(** The same for thread 2. *)
Lemma run_sched_false sched L c1 f1 m c2 f2 (w : world B) :
  run_sched (false :: sched) (mkSys L c1 f1 (m :: c2) f2) w =
  bind (micro_step m f2 L)
       (fun p => run_sched sched (mkSys (fst p) c1 f1 c2 (snd p))) w.
Proof. reflexivity. Qed.

(** A committed handler commits nothing more: after the setter stored the
    clamp [c] of a non-zero request, the predictor sees no change. *)
Lemma guarded_set_after_commit L v c (w : world B) :
  v <> 0 -> setter_clamp (min_level L) (max_level L) (VInt v) = VInt c ->
  guarded_set (with_level L c) (VInt v) w = (Ok (with_level L c), w).
Proof.
  intros Hv Hc. unfold guarded_set.
  rewrite level_change_needed_clamp by exact Hv.
  change (setter_clamp (min_level L) (max_level L) (VInt v)) with
    (setter_clamp (min_level (with_level L c)) (max_level (with_level L c)) (VInt v)) in Hc.
  rewrite Hc. cbn. now rewrite Z.eqb_refl.
Qed.
End Runs.

(** ** Properties of the writers *)

Section Properties.
Context {B : Type} `{Driver B}.

(** C27: run serially, handlers never send a redundant DAPC: the commands
    a run of guarded writes sends are DAPCs each of which is off or
    differs from the level the lamp had just before it. *)
Theorem serial_guarded_no_redundant vs self (w : world B) self' w' :
  run_ops (map Guarded vs) self w = (Ok self', w') ->
  exists cmds, sent w' = sent w ++ cmds /\ no_redundant (level self) cmds = true.
Proof.
  induction vs as [|v vs IH] in self, w |- *; intros Hr.
  - injection Hr as <- <-. exists []. now rewrite app_nil_r.
  - cbn [map run_ops run_op] in Hr. apply bind_inv in Hr as (s1 & w1 & H1 & H2).
    destruct (IH _ _ H2) as (cmds & S & N).
    destruct (guarded_set_run _ _ _ _ _ H1) as [[-> ->] | (c & Hc & -> & S1)]; [eauto|].
    exists (DAPC (short_address self) c :: cmds). split.
    + now rewrite S, S1, <- app_assoc.
    + cbn [no_redundant]. cbn [level with_level] in N. rewrite N, Bool.andb_true_r.
      destruct Hc as [->|Hc]; [reflexivity|].
      apply Bool.orb_true_intro. right. now apply Bool.negb_true_iff, Z.eqb_neq.
Qed.

End Properties.

(** ** The race of two handlers *)

Section Race.
Context {B : Type} `{Driver B}.

(** C28: the guarded write must be serialised.  For every lamp and every
    non-zero request [v] that needs a change, two handlers for [v] run
    one after the other send one DAPC with the clamped level [c] (the
    second finds nothing to change); interleaved so that both checks run
    before either commit, both see the old level, both commit, and the
    bus gets the same DAPC twice.  The lamp ends at [c] either way. *)
Theorem interleaved_guarded_redundant (L : Lamp) v (w : world B) :
  v <> 0 -> level_change_needed L (VInt v) = true ->
  exists c w1 w2,
    run_ops [Guarded (VInt v); Guarded (VInt v)] L w = (Ok (with_level L c), w1) /\
    sent w1 = sent w ++ [DAPC (short_address L) c] /\
    run_sched [true; false; true; false]
      (mkSys L (micros_of (Guarded (VInt v))) false (micros_of (Guarded (VInt v))) false) w =
      (Ok (mkSys (with_level L c) [] true [] true), w2) /\
    sent w2 = sent w ++ [DAPC (short_address L) c; DAPC (short_address L) c].
Proof.
  intros Hv Hn.
  destruct (setter_clamp_int (min_level L) (max_level L) v) as [c Hc].
  destruct (set_level_commit L (VInt v) c w Hc) as (w1 & E1 & S1).
  destruct (set_level_commit (with_level L c) (VInt v) c w1 Hc) as (w2 & E2 & S2).
  exists c, w1, w2. split; [|split; [exact S1|split]].
  - cbn [run_ops run_op]. unfold guarded_set at 1. rewrite Hn.
    rewrite (bind_ok _ _ _ _ _ E1), (bind_ok _ _ _ _ _ (guarded_set_after_commit L v c w1 Hv Hc)).
    reflexivity.
  - cbn [micros_of]. rewrite run_sched_true. cbn [micro_step]. rewrite Hn, bind_ret_l.
    cbn [fst snd]. rewrite run_sched_false. cbn [micro_step]. rewrite Hn, bind_ret_l.
    cbn [fst snd]. rewrite run_sched_true. cbn [micro_step]. rewrite bind_assoc.
    rewrite (bind_ok _ _ _ _ _ E1), bind_ret_l. cbn [fst snd].
    rewrite run_sched_false. cbn [micro_step]. rewrite bind_assoc.
    rewrite (bind_ok _ _ _ _ _ E2), bind_ret_l. reflexivity.
  - rewrite S2, S1, <- app_assoc. reflexivity.
Qed.
End Race.

Lemma serial_guarded_no_redundant_witness :
  run_ops (map Guarded [VInt 200; VInt 200; VInt 0; VInt 0; VInt 10]) kitchen
          (script_world []) =
    (Ok (with_level kitchen 86),
     mkWorld {| answers := [] |}
       [DAPC (Short 3) 200; DAPC (Short 3) 0; DAPC (Short 3) 0; DAPC (Short 3) 86]) /\
  exists cmds,
    sent (mkWorld {| answers := [] |}
            [DAPC (Short 3) 200; DAPC (Short 3) 0; DAPC (Short 3) 0; DAPC (Short 3) 86]) =
      sent (script_world []) ++ cmds /\
    no_redundant (level kitchen) cmds = true.
Proof.
  assert (E : run_ops (map Guarded [VInt 200; VInt 200; VInt 0; VInt 0; VInt 10]) kitchen
                (script_world []) =
              (Ok (with_level kitchen 86),
               mkWorld {| answers := [] |}
                 [DAPC (Short 3) 200; DAPC (Short 3) 0; DAPC (Short 3) 0; DAPC (Short 3) 86]))
    by (vm_compute; reflexivity).
  split; [exact E|]. exact (serial_guarded_no_redundant _ _ _ _ _ E).
Defined.

(** Two handlers for 200 on the kitchen lamp at 150. *)
Lemma interleaved_guarded_redundant_witness :
  (200 <> 0)%Z /\ level_change_needed kitchen (VInt 200) = true /\
  exists c w1 w2,
    run_ops [Guarded (VInt 200); Guarded (VInt 200)] kitchen (script_world []) =
      (Ok (with_level kitchen c), w1) /\
    sent w1 = sent (script_world []) ++ [DAPC (short_address kitchen) c] /\
    run_sched [true; false; true; false]
      (mkSys kitchen (micros_of (Guarded (VInt 200))) false
             (micros_of (Guarded (VInt 200))) false) (script_world []) =
      (Ok (mkSys (with_level kitchen c) [] true [] true), w2) /\
    sent w2 = sent (script_world []) ++
              [DAPC (short_address kitchen) c; DAPC (short_address kitchen) c].
Proof.
  split; [lia|]. split; [reflexivity|].
  apply (interleaved_guarded_redundant kitchen 200 (script_world [])); [lia | reflexivity].
Defined.
